(** * Domain matching and SQL generation of the RSS aggregator scripts

    A shallow embedding of [scripts/generate-import.py] and
    [scripts/update-ranks.py].

    - Python [str] values are lists of code points.  The development covers
      the code points U+0000..U+00FF (one [ascii] each); on that range
      [str.lower], [str.strip] and [int] are modelled as CPython defines them.
    - Python exceptions are an error monad ([result]); the top level of a
      script, which prints, is an output-and-error monad ([io]).
    - [csv.reader] and [csv.DictReader] are the boundary: a script receives
      the rows they yield.  [urllib.parse.urlparse] is a parameter. *)

From Stdlib Require Import ZArith Ascii String.
From Stdlib Require Import DecimalString DecimalFacts DecimalPos.
From stdpp Require Import base list strings.

Local Open Scope Z_scope.
Local Open Scope nat_scope.

(** ** Python values *)

Abbreviation str := (list ascii).

(** A [dict] with [str] keys: its items in iteration order, which is the
    order in which the keys were first inserted. *)
Abbreviation dict V := (list (str * V)).

(** A literal of the source. *)
Definition lit (s : string) : str := list_ascii_of_string s.

Notation "s! x" := (lit x) (at level 1, x at level 0, format "s! x").

Inductive exn : Type :=
  | StopIteration
  | ValueError
  | KeyError
  | AttributeError
  | IndexError.

Inductive result (A : Type) : Type :=
  | Ok (a : A)
  | Raise (e : exn).
Arguments Ok {A} a.
Arguments Raise {A} e.

#[global] Instance result_ret : MRet result := fun _ a => Ok a.
#[global] Instance result_bind : MBind result := fun _ _ f m =>
  match m with
  | Ok a => f a
  | Raise e => Raise e
  end.

#[global] Instance result_fmap : FMap result := fun _ _ f m =>
  match m with
  | Ok a => Ok (f a)
  | Raise e => Raise e
  end.

(** Standard output is the list of printed lines, oldest first. *)
Definition io (A : Type) : Type := list str -> list str * result A.

#[global] Instance io_ret : MRet io := fun _ a out => (out, Ok a).
#[global] Instance io_bind : MBind io := fun _ _ f m out =>
  match m out with
  | (out', Ok a) => f a out'
  | (out', Raise e) => (out', Raise e)
  end.

Definition print (line : str) : io unit := fun out => (out ++ [line], Ok tt).
Definition lift {A} (r : result A) : io A := fun out => (out, r).
Definition run {A} (m : io A) : list str * result A := m [].

(** ** Built-ins of Python used by the scripts *)
Module Py.

Definition code (c : ascii) : N := N_of_ascii c.

(** [str.isspace] of one code point below U+0100. *)
Definition isspace (c : ascii) : bool :=
  let n := code c in
  ((9 <=? n) && (n <=? 13) || (28 <=? n) && (n <=? 32)
   || (n =? 133) || (n =? 160))%N.

(** The lower-case mapping of one code point below U+0100. *)
Definition lower_char (c : ascii) : ascii :=
  let n := code c in
  if ((65 <=? n) && (n <=? 90)
      || (192 <=? n) && (n <=? 222) && negb (n =? 215))%N
  then ascii_of_N (n + 32) else c.

(** [s.lower()] *)
Definition lower (s : str) : str := lower_char <$> s.

Fixpoint lstrip (s : str) : str :=
  match s with
  | c :: s' => if isspace c then lstrip s' else s
  | [] => []
  end.

Definition rstrip (s : str) : str := reverse (lstrip (reverse s)).

(** [s.strip()] *)
Definition strip (s : str) : str := rstrip (lstrip s).

(** [s.startswith(p)] *)
Fixpoint startswith (s p : str) {struct p} : bool :=
  match p, s with
  | [], _ => true
  | _ :: _, [] => false
  | a :: p', b :: s' => bool_decide (a = b) && startswith s' p'
  end.

(** [s.endswith(p)] *)
Definition endswith (s p : str) : bool :=
  (length p <=? length s) && bool_decide (drop (length s - length p) s = p).

(** [c in s] for a one-character [c] *)
Definition contains (c : ascii) (s : str) : bool :=
  existsb (fun x => bool_decide (x = c)) s.

(** [s.split(sep, maxsplit)] for a one-character [sep]; [maxsplit = None]
    is the default, no limit.  The result is never empty. *)
Fixpoint split (sep : ascii) (maxsplit : option nat) (s : str) : list str :=
  match s with
  | [] => [[]]
  | c :: s' =>
      match maxsplit with
      | Some 0 => [s]
      | _ =>
          if bool_decide (c = sep)
          then [] :: split sep (pred <$> maxsplit) s'
          else match split sep maxsplit s' with
               | piece :: pieces => (c :: piece) :: pieces
               | [] => [[c]]
               end
      end
  end.

(** [l[i]] *)
Definition index {A} (l : list A) (i : nat) : result A :=
  match l !! i with
  | Some x => Ok x
  | None => Raise IndexError
  end.

(** [s.replace(old, new)] for a one-character [old] *)
Definition replace (old : ascii) (new : str) (s : str) : str :=
  flat_map (fun c => if bool_decide (c = old) then new else [c]) s.

Definition digit (c : ascii) : option Z :=
  let n := code c in
  if ((48 <=? n) && (n <=? 57))%N then Some (Z.of_N n - 48)%Z else None.

(** The digits of an integer literal: single underscores may separate
    digits.  [acc] is the value read so far, [after_digit] says whether the
    previous character was a digit. *)
Fixpoint int_digits (acc : Z) (after_digit : bool) (s : str) : option Z :=
  match s with
  | [] => if after_digit then Some acc else None
  | c :: s' =>
      match digit c with
      | Some d => int_digits (10 * acc + d)%Z true s'
      | None =>
          if bool_decide (c = "_"%char) && after_digit
          then int_digits acc false s'
          else None
      end
  end.

(** The whitespace that [int] skips around a literal: the whitespace of C
    (tab to carriage return, and the space), and U+0085 and U+00A0, which
    reach the parser as spaces.  U+001C..U+001F, which [str.strip] removes,
    are left in place and make the literal invalid. *)
Definition int_isspace (c : ascii) : bool :=
  let n := code c in
  ((9 <=? n) && (n <=? 13) || (n =? 32) || (n =? 133) || (n =? 160))%N.

Fixpoint int_lstrip (s : str) : str :=
  match s with
  | c :: s' => if int_isspace c then int_lstrip s' else s
  | [] => []
  end.

(** The number of digits of a literal; underscores do not count. *)
Definition count_digits (s : str) : nat :=
  length (filter (fun c => is_Some (digit c)) s).

(** [sys.int_max_str_digits], at its default. *)
Definition int_max_str_digits : nat := 4300.

(** The sign of a literal and the text after it. *)
Definition int_sign (body : str) : bool * str :=
  match body with
  | c :: ds =>
      if bool_decide (c = "-"%char) then (true, ds)
      else if bool_decide (c = "+"%char) then (false, ds)
      else (false, body)
  | [] => (false, [])
  end.

(** [int(s)]: surrounding whitespace, an optional sign, decimal digits, and
    no more digits than [sys.int_max_str_digits]. *)
Definition int (s : str) : result Z :=
  let body := reverse (int_lstrip (reverse (int_lstrip s))) in
  let (negative, ds) := int_sign body in
  match int_digits 0 false ds with
  | Some z =>
      if int_max_str_digits <? count_digits ds then Raise ValueError
      else Ok (if negative then (- z)%Z else z)
  | None => Raise ValueError
  end.

(** [str(z)], for an integer of at most [sys.int_max_str_digits] digits, as
    the ranks that [int] returns, the lengths and the counters are. *)
Definition str_of_int (z : Z) : str :=
  lit (NilZero.string_of_int (Z.to_int z)).

(** [None.strip()] raises; [s.strip()] does not. *)
Definition attr_strip (o : option str) : result str :=
  match o with
  | Some s => Ok (strip s)
  | None => Raise AttributeError
  end.

(** [d[k] = v]: a key already present keeps its place and takes the new
    value, a new key goes last. *)
Fixpoint setitem {V} (d : dict V) (k : str) (v : V) : dict V :=
  match d with
  | [] => [(k, v)]
  | (k', v') :: d' =>
      if bool_decide (k' = k) then (k', v) :: d'
      else (k', v') :: setitem d' k v
  end.

(** [d[k]] *)
Fixpoint getitem {V} (d : dict V) (k : str) : result V :=
  match d with
  | [] => Raise KeyError
  | (k', v) :: d' => if bool_decide (k' = k) then Ok v else getitem d' k
  end.

(** [len(l)] as an integer *)
Definition len {A} (l : list A) : Z := Z.of_nat (length l).

End Py.

(** A [for] loop without [break]: the body threads the loop's variables. *)
Fixpoint for_each {A S} (body : S -> A -> result S) (s : S) (l : list A)
  : result S :=
  match l with
  | [] => Ok s
  | x :: l' => s' ← body s x; for_each body s' l'
  end.

Fixpoint for_each_io {A S} (body : S -> A -> io S) (s : S) (l : list A)
  : io S :=
  match l with
  | [] => mret s
  | x :: l' => s' ← body s x; for_each_io body s' l'
  end.

(** ** scripts/generate-import.py *)
Module GenerateImport.

Definition normalize_domain (domain : str) : str :=
  let domain := Py.strip (Py.lower domain) in
  if Py.startswith domain s!"www." then drop 4 domain else domain.

Definition domains_match (feed_domain ranked_domain : str) : result bool :=
  let feed_domain := normalize_domain feed_domain in
  let ranked_domain := normalize_domain ranked_domain in
  if bool_decide (feed_domain = ranked_domain) then Ok true
  else if Py.endswith feed_domain (s!"." ++ ranked_domain) then Ok true
  else if Py.endswith ranked_domain (s!"." ++ feed_domain) then Ok true
  else if Py.contains "/" ranked_domain then
    base_domain ← Py.index (Py.split "/" None ranked_domain) 0;
    path_part ← (if Py.contains "/" ranked_domain
                 then Py.index (Py.split "/" (Some 1) ranked_domain) 1
                 else Ok s!"");
    if bool_decide (feed_domain = base_domain)
       || Py.endswith feed_domain (s!"." ++ base_domain)
    then Ok true
    else Ok false
  else Ok false.

(** The value stored per ranked domain. *)
Record info : Type := { rank : Z; author : str }.

(** One turn of the loop of [load_rankings]. *)
Definition load_row (rankings : dict info) (row : list str)
  : result (dict info) :=
  if 6 <=? length row then
    field ← Py.index row 0;
    rank ← Py.int field;
    field ← Py.index row 1;
    let domain := Py.strip (Py.lower field) in
    author ← (if 5 <? length row
              then Py.strip <$> Py.index row 5
              else Ok s!"");
    Ok (Py.setitem rankings domain {| rank := rank; author := author |})
  else Ok rankings.

(** [reader] is what [csv.reader] yields for top100.csv. *)
Definition load_rankings (reader : list (list str)) : result (dict info) :=
  match reader with
  | [] => Raise StopIteration
  | header :: rows => for_each load_row [] rows
  end.

Record feed : Type := { name : str; url : str; domain : str }.

Definition escape_sql (s : option str) : str :=
  match s with
  | None => s!"NULL"
  | Some s => s!"'" ++ Py.replace "'" s!"''" s ++ s!"'"
  end.

(** The inner loop of [main]: the rank of the first item that matches. *)
Fixpoint find_rank (domain : str) (items : dict info) : result (option Z) :=
  match items with
  | [] => Ok None
  | (ranked_domain, inf) :: items' =>
      m ← domains_match domain ranked_domain;
      if (m : bool) then Ok (Some (rank inf)) else find_rank domain items'
  end.

(** [if rank:] on a value that is [None] or an integer. *)
Definition truthy (rank : option Z) : bool :=
  match rank with
  | Some z => negb (z =? 0)%Z
  | None => false
  end.

(** [str(rank)] *)
Definition to_str (rank : option Z) : str :=
  match rank with
  | Some z => Py.str_of_int z
  | None => s!"None"
  end.

Definition insert_stmt (f : feed) (rank_val : str) : str :=
  s!"INSERT OR IGNORE INTO feeds (name, url, domain, rank) VALUES ("
  ++ escape_sql (Some (name f)) ++ s!", "
  ++ escape_sql (Some (url f)) ++ s!", "
  ++ escape_sql (Some (domain f)) ++ s!", "
  ++ rank_val ++ s!");".

(** One turn of the loop over the feeds; the loop's variables are
    [(matched, unmatched)]. *)
Definition emit_feed (rankings : dict info) (counts : Z * Z) (f : feed)
  : io (Z * Z) :=
  let '(matched, unmatched) := counts in
  rank ← lift (find_rank (domain f) rankings);
  let counts' :=
    if truthy rank then ((matched + 1)%Z, unmatched)
    else (matched, (unmatched + 1)%Z) in
  let rank_val := if truthy rank then to_str rank else s!"NULL" in
  print (insert_stmt f rank_val);;
  mret counts'.

Definition summary (counts : Z * Z) : str :=
  s!"-- Summary: " ++ Py.str_of_int counts.1 ++ s!" ranked feeds, "
  ++ Py.str_of_int counts.2 ++ s!" unranked feeds".

Section Urlparse.

(** [urlparse(url).netloc], which may raise. *)
Variable urlparse_netloc : str -> result str.

Definition extract_domain (url : str) : result str :=
  netloc ← urlparse_netloc url;
  let domain := Py.lower netloc in
  if Py.startswith domain s!"www." then Ok (drop 4 domain) else Ok domain.

(** One turn of the loop of [load_feeds]; [row] is a row of
    [csv.DictReader], a missing field being [None]. *)
Definition load_feed (feeds : list feed) (row : dict (option str))
  : result (list feed) :=
  field ← Py.getitem row s!"name";
  name ← Py.attr_strip field;
  field ← Py.getitem row s!"url";
  url ← Py.attr_strip field;
  if bool_decide (url ≠ []) then
    domain ← extract_domain url;
    Ok (feeds ++ [{| name := name; url := url; domain := domain |}])
  else Ok feeds.

Definition load_feeds (reader : list (dict (option str)))
  : result (list feed) :=
  for_each load_feed [] reader.

(** [main]; the model returns the final [(matched, unmatched)], which
    the script prints in its last line. *)
Definition main (top100 : list (list str))
    (feeds_csv : list (dict (option str))) : io (Z * Z) :=
  rankings ← lift (load_rankings top100);
  feeds ← lift (load_feeds feeds_csv);
  print (s!"-- Loaded " ++ Py.str_of_int (Py.len rankings)
         ++ s!" rankings and " ++ Py.str_of_int (Py.len feeds)
         ++ s!" feeds");;
  print s!"";;
  print s!"-- Feed inserts";;
  print s!"";;
  counts ← for_each_io (emit_feed rankings) (0%Z, 0%Z) feeds;
  print s!"";;
  print (summary counts);;
  mret counts.

End Urlparse.

End GenerateImport.

(** ** scripts/update-ranks.py *)
Module UpdateRanks.

Definition normalize_domain (domain : str) : str :=
  let domain := Py.strip (Py.lower domain) in
  if Py.startswith domain s!"www." then drop 4 domain else domain.

Definition domains_match (feed_domain ranked_domain : str) : result bool :=
  let feed_domain := normalize_domain feed_domain in
  let ranked_domain := normalize_domain ranked_domain in
  if bool_decide (feed_domain = ranked_domain) then Ok true
  else if Py.endswith feed_domain (s!"." ++ ranked_domain) then Ok true
  else if Py.endswith ranked_domain (s!"." ++ feed_domain) then Ok true
  else if Py.contains "/" ranked_domain then
    base_domain ← Py.index (Py.split "/" None ranked_domain) 0;
    if bool_decide (feed_domain = base_domain)
       || Py.endswith feed_domain (s!"." ++ base_domain)
    then Ok true
    else Ok false
  else Ok false.

(** One turn of the loop that fills [rankings]. *)
Definition load_row (rankings : dict Z) (row : list str) : result (dict Z) :=
  if 2 <=? length row then
    field ← Py.index row 0;
    rank ← Py.int field;
    field ← Py.index row 1;
    let domain := Py.strip (Py.lower field) in
    Ok (Py.setitem rankings domain rank)
  else Ok rankings.

Definition load_rankings (reader : list (list str)) : result (dict Z) :=
  match reader with
  | [] => Raise StopIteration
  | header :: rows => for_each load_row [] rows
  end.

Definition update_stmt (rank : Z) (url : str) : str :=
  let escaped_url := Py.replace "'" s!"''" url in
  s!"UPDATE feeds SET rank = " ++ Py.str_of_int rank
  ++ s!" WHERE url = '" ++ escaped_url ++ s!"';".

(** The loop over [rankings.items()]: it stops at the first match. *)
Fixpoint scan (domain url : str) (matched : Z) (items : dict Z) : io Z :=
  match items with
  | [] => mret matched
  | (ranked_domain, rank) :: items' =>
      m ← lift (domains_match domain ranked_domain);
      if (m : bool) then
        print (update_stmt rank url);;
        mret (matched + 1)%Z
      else scan domain url matched items'
  end.

Section Urlparse.

Variable urlparse_netloc : str -> result str.

Definition extract_domain (url : str) : result str :=
  netloc ← urlparse_netloc url;
  let domain := Py.lower netloc in
  if Py.startswith domain s!"www." then Ok (drop 4 domain) else Ok domain.

(** One turn of the loop over the feed rows. *)
Definition update_feed (rankings : dict Z) (matched : Z)
    (row : dict (option str)) : io Z :=
  field ← lift (Py.getitem row s!"url");
  url ← lift (Py.attr_strip field);
  if bool_decide (url ≠ []) then
    domain ← lift (extract_domain url);
    scan domain url matched rankings
  else mret matched.

(** The module body; the model returns the final [matched]. *)
Definition script (top100 : list (list str))
    (feeds_csv : list (dict (option str))) : io Z :=
  rankings ← lift (load_rankings top100);
  matched ← for_each_io (update_feed rankings) 0%Z feeds_csv;
  print (s!"-- Matched " ++ Py.str_of_int matched
         ++ s!" feeds to rankings");;
  mret matched.

End Urlparse.

End UpdateRanks.

(** [urlparse(url).netloc] on URLs of the shape [scheme://authority/rest],
    without [?] or [#] in the authority: the text between the first [//] and
    the next [/].  It stands for [urlparse] only where a script is run on a
    concrete table of such URLs. *)
Fixpoint after_slashes (url : str) : option str :=
  match url with
  | "/"%char :: (("/"%char :: rest) as url') => Some rest
  | _ :: url' => after_slashes url'
  | [] => None
  end.

Definition netloc_of (url : str) : result str :=
  match after_slashes url with
  | Some rest => Py.index (Py.split "/" (Some 1) rest) 0
  | None => Ok s!""
  end.

(** ** Vocabulary for the statements about the tables *)

(** The fields a ranking row is read by: [int(row[0])],
    [row[1].lower().strip()] and [row[5].strip()]. *)
Definition row_rank (row : list str) : result Z :=
  Py.int (default [] (row !! 0)).

Definition row_domain (row : list str) : str :=
  Py.strip (Py.lower (default [] (row !! 1))).

Definition row_author (row : list str) : str :=
  Py.strip (default [] (row !! 5)).

(** What generate-import.py stores for a row. *)
Definition info_of_row (row : list str) : result GenerateImport.info :=
  z ← row_rank row;
  Ok {| GenerateImport.rank := z; GenerateImport.author := row_author row |}.

(** In a table [pre ++ row :: post], [row] is the last, respectively the
    first, row of at least [n] columns with its domain. *)
Definition last_of_domain (n : nat) (row : list str)
    (post : list (list str)) : Prop :=
  n <= length row
  /\ forall r, r ∈ post -> n <= length r -> row_domain r <> row_domain row.

Definition first_of_domain (n : nat) (pre : list (list str))
    (row : list str) : Prop :=
  n <= length row
  /\ forall r, r ∈ pre -> n <= length r -> row_domain r <> row_domain row.

(** The trimmed [url] field of a feed row, when the row has one and it is
    not empty. *)
Definition trimmed_url (row : dict (option str)) : option str :=
  match Py.getitem row s!"url" with
  | Ok (Some u) =>
      if bool_decide (Py.strip u ≠ []) then Some (Py.strip u) else None
  | _ => None
  end.

(** Whether the single quotes of a text come in adjacent pairs, as inside an
    SQL string literal. *)
Fixpoint quotes_paired (s : str) : bool :=
  match s with
  | [] => true
  | c :: s' =>
      if bool_decide (c = "'"%char)
      then match s' with
           | c' :: s'' => bool_decide (c' = "'"%char) && quotes_paired s''
           | [] => false
           end
      else quotes_paired s'
  end.

(** The ranks held by the rankings of generate-import.py, as update-ranks.py
    stores them. *)
Definition ranks_of (rankings : dict GenerateImport.info) : dict Z :=
  (fun e => (e.1, GenerateImport.rank e.2)) <$> rankings.

(** Whether [main] counts a feed as ranked, and the text it writes for the
    feed's rank: the value of [rank_val] in the source. *)
Definition ranked (rankings : dict GenerateImport.info)
    (f : GenerateImport.feed) : bool :=
  match GenerateImport.find_rank (GenerateImport.domain f) rankings with
  | Ok rank => GenerateImport.truthy rank
  | Raise _ => false
  end.

Definition rank_val (rankings : dict GenerateImport.info)
    (f : GenerateImport.feed) : str :=
  match GenerateImport.find_rank (GenerateImport.domain f) rankings with
  | Ok rank =>
      if GenerateImport.truthy rank then GenerateImport.to_str rank
      else s!"NULL"
  | Raise _ => s!"NULL"
  end.

(** A line is an UPDATE statement of update-ranks.py. *)
Definition is_update (line : str) : Prop :=
  exists rank url, line = UpdateRanks.update_stmt rank url.

#[global] Instance exn_eq_dec : EqDecision exn.
Proof. solve_decision. Defined.

#[global] Instance result_eq_dec {A} `{EqDecision A} : EqDecision (result A).
Proof. solve_decision. Defined.

(** The UPDATE statements that update-ranks.py prints for one feed row: the
    statement of the first ranking that matches the domain of the row's
    trimmed url, when the row has such a url and a ranking matches. *)
Definition row_updates (netloc : str -> result str) (rankings : dict Z)
    (row : dict (option str)) : list str :=
  match trimmed_url row with
  | Some url =>
      match UpdateRanks.extract_domain netloc url with
      | Ok domain =>
          match list_find
                  (fun item => UpdateRanks.domains_match domain item.1 = Ok true)
                  rankings with
          | Some (_, (_, rank)) => [UpdateRanks.update_stmt rank url]
          | None => []
          end
      | Raise _ => []
      end
  | None => []
  end.

(** * Properties *)

(** ** The built-ins *)

Lemma endswith_spec (s p : str) : Py.endswith s p = true <-> p `suffix_of` s.
Proof.
  unfold Py.endswith. rewrite andb_true_iff, Nat.leb_le, bool_decide_eq_true.
  split.
  - intros [_ Hd]. exists (take (length s - length p) s).
    rewrite <- Hd at 2. symmetry. apply take_drop.
  - intros [k ->]. rewrite length_app. split; [lia|].
    apply drop_app_length'. lia.
Qed.

Lemma contains_spec (c : ascii) (s : str) : Py.contains c s = true <-> c ∈ s.
Proof.
  unfold Py.contains. induction s as [|x s IH]; simpl.
  - split; [discriminate | intros H; inversion H].
  - rewrite orb_true_iff, bool_decide_eq_true, IH, elem_of_cons.
    split; intros [->|H]; auto.
Qed.

Lemma split_nonempty sep n s : Py.split sep n s <> [].
Proof.
  destruct s as [|c s]; simpl; [discriminate|].
  destruct n as [[|n]|]; try discriminate;
    (case_bool_decide; [discriminate|]);
    destruct (Py.split sep _ s); discriminate.
Qed.

(** The first piece of a split is the text before the first separator. *)
Lemma split_first sep (base rest : str) :
  sep ∉ base ->
  exists pieces, Py.split sep None (base ++ sep :: rest) = base :: pieces.
Proof.
  induction base as [|c base IH]; intros Hn; simpl.
  - rewrite bool_decide_eq_true_2 by done. eauto.
  - apply not_elem_of_cons in Hn as [Hc Hn].
    rewrite bool_decide_eq_false_2 by congruence.
    destruct (IH Hn) as [pieces ->]. eauto.
Qed.

Lemma split_once sep (base rest : str) :
  sep ∉ base ->
  Py.split sep (Some 1) (base ++ sep :: rest) = [base; rest].
Proof.
  induction base as [|c base IH]; intros Hn; simpl.
  - rewrite bool_decide_eq_true_2 by done. simpl. by destruct rest.
  - apply not_elem_of_cons in Hn as [Hc Hn].
    rewrite bool_decide_eq_false_2 by congruence.
    by rewrite (IH Hn).
Qed.

(** A string that contains the separator splits at its first occurrence. *)
Lemma first_occurrence (c : ascii) (s : str) :
  c ∈ s -> exists base rest, s = base ++ c :: rest /\ c ∉ base.
Proof.
  intros H. destruct (list_elem_of_split_l s c H) as (l1 & l2 & ? & ?). eauto.
Qed.

Lemma first_occurrence_unique (c : ascii) (b1 r1 b2 r2 : str) :
  b1 ++ c :: r1 = b2 ++ c :: r2 -> c ∉ b1 -> c ∉ b2 -> b1 = b2 /\ r1 = r2.
Proof.
  revert b2. induction b1 as [|x b1 IH]; intros [|y b2] E H1 H2; simpl in E.
  - by inversion E.
  - inversion E; subst. exfalso. apply H2. left.
  - inversion E; subst. exfalso. apply H1. left.
  - injection E as -> E.
    apply not_elem_of_cons in H1 as [_ H1]. apply not_elem_of_cons in H2 as [_ H2].
    destruct (IH b2 E H1 H2) as [-> ->]. done.
Qed.

Lemma path_base (r : str) :
  Py.contains "/" r = true ->
  exists base rest pieces,
    r = base ++ "/"%char :: rest /\ ("/"%char ∉ base)
    /\ Py.split "/" None r = base :: pieces
    /\ Py.split "/" (Some 1) r = [base; rest].
Proof.
  intros H. apply contains_spec, first_occurrence in H as (base & rest & -> & Hn).
  destruct (split_first "/" base rest Hn) as [pieces Hs].
  exists base, rest, pieces. auto using split_once.
Qed.

(** ** The domain matcher *)

Lemma normalize_domain_same (d : str) :
  GenerateImport.normalize_domain d = UpdateRanks.normalize_domain d.
Proof. reflexivity. Qed.

(** The extra [path_part] line of generate-import.py never raises, so the
    two copies of the matcher agree. *)
Lemma domains_match_agree (f r : str) :
  GenerateImport.domains_match f r = UpdateRanks.domains_match f r.
Proof.
  unfold GenerateImport.domains_match, UpdateRanks.domains_match.
  change GenerateImport.normalize_domain with UpdateRanks.normalize_domain.
  case_bool_decide; [done|].
  do 2 (case_match; [done|]).
  destruct (Py.contains _ _) eqn:Hc; [|done].
  destruct (path_base _ Hc) as (base & rest & pieces & _ & _ & -> & ->).
  done.
Qed.

Lemma update_ranks_domains_match (f r : str) :
  let nf := UpdateRanks.normalize_domain f in
  let nr := UpdateRanks.normalize_domain r in
  exists b, UpdateRanks.domains_match f r = Ok b /\
    (b = true <->
       nf = nr
       \/ (s!"." ++ nr) `suffix_of` nf
       \/ (s!"." ++ nf) `suffix_of` nr
       \/ (("/"%char ∈ nr) /\
           exists base rest, nr = base ++ "/"%char :: rest /\ ("/"%char ∉ base)
             /\ (nf = base \/ (s!"." ++ base) `suffix_of` nf))).
Proof.
  intros nf nr. unfold UpdateRanks.domains_match. fold nf nr.
  case_bool_decide as Heq; [exists true; tauto|].
  destruct (Py.endswith nf _) eqn:H1.
  { exists true. apply endswith_spec in H1. tauto. }
  destruct (Py.endswith nr _) eqn:H2.
  { exists true. apply endswith_spec in H2. tauto. }
  assert (N1 : ~ (s!"." ++ nr) `suffix_of` nf).
  { rewrite <- endswith_spec. congruence. }
  assert (N2 : ~ (s!"." ++ nf) `suffix_of` nr).
  { rewrite <- endswith_spec. congruence. }
  destruct (Py.contains "/" nr) eqn:Hc.
  - destruct (path_base _ Hc) as (base & rest & pieces & Hr & Hn & Hs & _).
    rewrite Hs. change (Py.index (base :: pieces) 0) with (Ok base).
    unfold mbind, result_bind.
    destruct (bool_decide (nf = base) || Py.endswith nf (s!"." ++ base)) eqn:H3.
    + exists true. split; [done|]. split; [|done]. intros _.
      right; right; right. split; [by apply contains_spec|].
      exists base, rest. split; [done|]. split; [done|].
      apply orb_true_iff in H3 as [H3|H3].
      * left. by apply bool_decide_eq_true in H3.
      * right. by apply endswith_spec.
    + exists false. split; [done|]. split; [done|].
      apply orb_false_iff in H3 as [H3 H4]. apply bool_decide_eq_false in H3.
      intros [?|[?|[?|(_ & base' & rest' & Hr' & Hn' & Hm)]]]; try done.
      rewrite Hr in Hr'.
      destruct (first_occurrence_unique _ _ _ _ _ Hr' Hn Hn') as [<- _].
      destruct Hm as [?|Hm]; [done|].
      apply endswith_spec in Hm. congruence.
  - exists false. split; [done|]. split; [done|].
    intros [?|[?|[?|(Hin & _)]]]; try done.
    apply contains_spec in Hin. congruence.
Qed.

(** C1: [domains_match] of either script returns a boolean for every pair of
    strings, and that boolean is true exactly when, on the normalized
    inputs, the two are equal, or the feed domain ends with "." followed by
    the ranked domain, or the ranked domain ends with "." followed by the
    feed domain, or the ranked domain contains "/" and the feed domain equals,
    or ends with "." followed by, the text before its first "/". *)
Theorem domains_match_rules (feed_domain ranked_domain : str) :
  let f := GenerateImport.normalize_domain feed_domain in
  let r := GenerateImport.normalize_domain ranked_domain in
  exists b : bool,
    GenerateImport.domains_match feed_domain ranked_domain = Ok b
    /\ UpdateRanks.domains_match feed_domain ranked_domain = Ok b
    /\ (b = true <->
          f = r
          \/ (s!"." ++ r) `suffix_of` f
          \/ (s!"." ++ f) `suffix_of` r
          \/ (("/"%char ∈ r) /\
              exists base rest,
                r = base ++ "/"%char :: rest /\ ("/"%char ∉ base)
                /\ (f = base \/ (s!"." ++ base) `suffix_of` f))).
Proof.
  intros f r.
  destruct (update_ranks_domains_match feed_domain ranked_domain) as (b & Hb & Hiff).
  exists b. rewrite domains_match_agree. auto.
Qed.

(** C6: the matcher of generate-import.py and the matcher of update-ranks.py
    return the same result on every pair of strings. *)
Theorem domains_match_same_in_both_scripts (feed_domain ranked_domain : str) :
  GenerateImport.domains_match feed_domain ranked_domain
  = UpdateRanks.domains_match feed_domain ranked_domain
  /\ exists b : bool, UpdateRanks.domains_match feed_domain ranked_domain = Ok b.
Proof.
  split; [apply domains_match_agree|].
  destruct (update_ranks_domains_match feed_domain ranked_domain) as (b & Hb & _).
  eauto.
Qed.

(** ** Normalization *)

Lemma lower_char_idem (c : ascii) :
  Py.lower_char (Py.lower_char c) = Py.lower_char c.
Proof. destruct c as [[] [] [] [] [] [] [] []]; reflexivity. Qed.

Lemma lower_idem (s : str) : Py.lower (Py.lower s) = Py.lower s.
Proof.
  unfold Py.lower. rewrite <- list_fmap_compose.
  apply list_fmap_ext. intros _ c _. apply lower_char_idem.
Qed.

Lemma lower_drop (n : nat) (s : str) : Py.lower (drop n s) = drop n (Py.lower s).
Proof. apply fmap_drop. Qed.

Lemma startswith_spec (s p : str) : Py.startswith s p = true <-> p `prefix_of` s.
Proof.
  revert s. induction p as [|a p IH]; intros s; simpl.
  - split; [intros _; apply prefix_nil | done].
  - destruct s as [|b s].
    + split; [done|]. intros [k Hk]. discriminate.
    + rewrite andb_true_iff, bool_decide_eq_true, IH. split.
      * intros [-> H]. by apply prefix_cons.
      * intros H. split; [by apply prefix_cons_inv_1 in H|by apply prefix_cons_inv_2 in H].
Qed.

Lemma lstrip_suffix (s : str) : Py.lstrip s `suffix_of` s.
Proof.
  induction s as [|c s IH]; simpl; [done|].
  destruct (Py.isspace c); [by apply suffix_cons_r | done].
Qed.

Lemma lstrip_idem (s : str) : Py.lstrip (Py.lstrip s) = Py.lstrip s.
Proof.
  induction s as [|c s IH]; simpl; [done|].
  destruct (Py.isspace c) eqn:E; [done|]. simpl. by rewrite E.
Qed.

Lemma lstrip_fixed_or_shorter (s : str) :
  Py.lstrip s = s \/ length (Py.lstrip s) < length s.
Proof.
  destruct s as [|c s]; simpl; [by left|].
  destruct (Py.isspace c); [right | by left].
  pose proof (suffix_length _ _ (lstrip_suffix s)). lia.
Qed.

(** A string without leading whitespace has prefixes without leading
    whitespace. *)
Lemma lstrip_prefix_fixed (s p : str) :
  Py.lstrip s = s -> p `prefix_of` s -> Py.lstrip p = p.
Proof.
  intros Hs Hp. destruct p as [|a p]; [done|]. destruct s as [|b s].
  - destruct Hp as [k Hk]. discriminate.
  - apply prefix_cons_inv_1 in Hp as ->. simpl in *.
    destruct (Py.isspace b); [|done].
    pose proof (suffix_length _ _ (lstrip_suffix s)) as Hl.
    rewrite Hs in Hl. simpl in Hl. lia.
Qed.

Lemma rstrip_prefix (s : str) : Py.rstrip s `prefix_of` s.
Proof.
  unfold Py.rstrip. pose proof (lstrip_suffix (reverse s)) as H.
  apply suffix_prefix_reverse in H. by rewrite reverse_involutive in H.
Qed.

Lemma rstrip_idem (s : str) : Py.rstrip (Py.rstrip s) = Py.rstrip s.
Proof. unfold Py.rstrip. by rewrite reverse_involutive, lstrip_idem. Qed.

Lemma rstrip_fixed_or_shorter (s : str) :
  Py.rstrip s = s \/ length (Py.rstrip s) < length s.
Proof.
  unfold Py.rstrip. destruct (lstrip_fixed_or_shorter (reverse s)) as [E|L].
  - left. by rewrite E, reverse_involutive.
  - right. by rewrite length_reverse in *.
Qed.

Lemma rstrip_suffix_fixed (s y : str) :
  Py.rstrip s = s -> y `suffix_of` s -> Py.rstrip y = y.
Proof.
  unfold Py.rstrip. intros Hs Hy.
  rewrite (lstrip_prefix_fixed (reverse s) (reverse y)).
  - apply reverse_involutive.
  - by rewrite <- Hs at 2; rewrite reverse_involutive.
  - by apply suffix_prefix_reverse.
Qed.

Lemma strip_lstrip (s : str) : Py.lstrip (Py.strip s) = Py.strip s.
Proof.
  unfold Py.strip.
  apply (lstrip_prefix_fixed (Py.lstrip s)); [apply lstrip_idem | apply rstrip_prefix].
Qed.

Lemma strip_rstrip (s : str) : Py.rstrip (Py.strip s) = Py.strip s.
Proof. apply rstrip_idem. Qed.

Lemma strip_length (s : str) : length (Py.strip s) <= length s.
Proof.
  unfold Py.strip.
  pose proof (prefix_length _ _ (rstrip_prefix (Py.lstrip s))).
  pose proof (suffix_length _ _ (lstrip_suffix s)). lia.
Qed.

Lemma strip_fixed_iff (s : str) :
  Py.strip s = s <-> Py.lstrip s = s /\ Py.rstrip s = s.
Proof.
  split.
  - intros E. split; rewrite <- E at 1.
    + by rewrite strip_lstrip.
    + by rewrite strip_rstrip.
  - intros [E1 E2]. unfold Py.strip. by rewrite E1.
Qed.

Lemma lower_suffix_fixed (s y : str) :
  Py.lower s = s -> y `suffix_of` s -> Py.lower y = y.
Proof.
  intros Hs [k ->]. unfold Py.lower in *. rewrite fmap_app in Hs.
  apply app_inj_1 in Hs as [_ ?]; [done|]. by rewrite length_fmap.
Qed.

Lemma lower_prefix_fixed (s p : str) :
  Py.lower s = s -> p `prefix_of` s -> Py.lower p = p.
Proof.
  intros Hs [k ->]. unfold Py.lower in *. rewrite fmap_app in Hs.
  apply app_inj_1 in Hs as [? _]; [done|]. by rewrite length_fmap.
Qed.

(** What [normalize_domain] returns is already lower-case and has no trailing
    whitespace. *)
Lemma normalize_domain_lower (x : str) :
  Py.lower (GenerateImport.normalize_domain x) = GenerateImport.normalize_domain x.
Proof.
  unfold GenerateImport.normalize_domain.
  assert (E : Py.lower (Py.strip (Py.lower x)) = Py.strip (Py.lower x)).
  { unfold Py.strip.
    apply (lower_prefix_fixed (Py.lstrip (Py.lower x))); [|apply rstrip_prefix].
    apply (lower_suffix_fixed (Py.lower x)); [apply lower_idem|apply lstrip_suffix]. }
  destruct (Py.startswith _ _); [|done].
  by rewrite lower_drop, E.
Qed.

Lemma normalize_domain_rstrip (x : str) :
  Py.rstrip (GenerateImport.normalize_domain x) = GenerateImport.normalize_domain x.
Proof.
  unfold GenerateImport.normalize_domain.
  destruct (Py.startswith _ _); [|apply strip_rstrip].
  apply (rstrip_suffix_fixed (Py.strip (Py.lower x))); [apply strip_rstrip|apply suffix_drop].
Qed.

(** C3 (amended): normalizing twice is the same as normalizing once exactly
    when the normalized string begins neither with whitespace nor with
    "www."; only one leading "www." is removed, and what follows it is not
    trimmed again. *)
Theorem normalize_domain_idempotent_iff (x : str) :
  let n := GenerateImport.normalize_domain x in
  UpdateRanks.normalize_domain x = n
  /\ (GenerateImport.normalize_domain n = n
      <-> Py.lstrip n = n /\ Py.startswith n s!"www." = false).
Proof.
  intros n. split; [done|].
  pose proof (normalize_domain_lower x) as Hl.
  pose proof (normalize_domain_rstrip x) as Hr. fold n in Hl, Hr.
  unfold GenerateImport.normalize_domain at 1. rewrite Hl. split.
  - destruct (Py.startswith (Py.strip n) _) eqn:Hw.
    + intros E. exfalso.
      apply startswith_spec, prefix_length in Hw.
      pose proof (strip_length n) as Hs.
      apply (f_equal length) in E. rewrite length_drop in E.
      simpl in Hw. lia.
    + intros E. rewrite E in Hw. by apply strip_fixed_iff in E as [? _].
  - intros [E1 E2].
    assert (E : Py.strip n = n) by (by apply strip_fixed_iff).
    by rewrite E, E2.
Qed.

Lemma normalize_domain_idempotent_example :
  GenerateImport.normalize_domain
    (GenerateImport.normalize_domain s!" WWW.Example.COM ")
  = GenerateImport.normalize_domain s!" WWW.Example.COM ".
Proof.
  apply (normalize_domain_idempotent_iff s!" WWW.Example.COM ").
  split; reflexivity.
Defined.

Lemma normalize_domain_not_idempotent :
  GenerateImport.normalize_domain s!"www.www.example.com" = s!"www.example.com"
  /\ GenerateImport.normalize_domain
       (GenerateImport.normalize_domain s!"www.www.example.com")
     = s!"example.com"
  /\ GenerateImport.normalize_domain
       (GenerateImport.normalize_domain s!"www.www.example.com")
     <> GenerateImport.normalize_domain s!"www.www.example.com".
Proof. repeat split. by vm_compute. Qed.

(** ** The path rule *)

(** C5 (amended): the text before the first "/" is taken from the ranked
    domain only.  "devblogs.microsoft.com" matches the ranked entry
    "devblogs.microsoft.com/oldnewthing"; the reversed calls do not match,
    and neither does a pair that agrees before the "/" only.  For every pair
    the result is decided by comparing the whole normalized feed domain, "/"
    included: it is true exactly when that string equals the normalized
    ranked domain, or ends with "." and it, or the ranked one ends with "."
    and the whole feed domain, or the ranked one has a "/" and the whole feed
    domain equals, or ends with "." and, the text before its first "/".  So
    a feed domain with a "/" never matches through the text before its own
    "/". *)
Theorem path_split_only_on_ranked :
  GenerateImport.domains_match
    s!"devblogs.microsoft.com" s!"devblogs.microsoft.com/oldnewthing" = Ok true
  /\ GenerateImport.domains_match
       s!"devblogs.microsoft.com/oldnewthing" s!"devblogs.microsoft.com" = Ok false
  /\ GenerateImport.domains_match
       s!"devblogs.microsoft.com/oldnewthing" s!"microsoft.com" = Ok false
  /\ GenerateImport.domains_match s!"a.com/x" s!"a.com/y" = Ok false
  /\ (forall feed_domain ranked_domain : str,
        let f := GenerateImport.normalize_domain feed_domain in
        let r := GenerateImport.normalize_domain ranked_domain in
        (GenerateImport.domains_match feed_domain ranked_domain = Ok true
         \/ GenerateImport.domains_match feed_domain ranked_domain = Ok false)
        /\ (GenerateImport.domains_match feed_domain ranked_domain = Ok true
            <-> f = r
                \/ (s!"." ++ r) `suffix_of` f
                \/ (s!"." ++ f) `suffix_of` r
                \/ exists base rest,
                     r = base ++ "/"%char :: rest /\ ("/"%char ∉ base)
                     /\ (f = base \/ (s!"." ++ base) `suffix_of` f))
        /\ (("/"%char ∈ f) ->
            GenerateImport.domains_match feed_domain ranked_domain = Ok true ->
            f = r
            \/ (s!"." ++ r) `suffix_of` f
            \/ (s!"." ++ f) `suffix_of` r
            \/ exists base rest,
                 r = base ++ "/"%char :: rest /\ ("/"%char ∉ base)
                 /\ (s!"." ++ base) `suffix_of` f)).
Proof.
  do 4 (split; [reflexivity|]).
  intros fd rd f r.
  destruct (update_ranks_domains_match fd rd) as (b & Hb & Hiff).
  rewrite domains_match_agree, Hb.
  split; [destruct b; auto|].
  change UpdateRanks.normalize_domain with GenerateImport.normalize_domain in Hiff.
  fold f r in Hiff.
  assert (Hchar : Ok b = Ok true
    <-> f = r
        \/ (s!"." ++ r) `suffix_of` f
        \/ (s!"." ++ f) `suffix_of` r
        \/ exists base rest,
             r = base ++ "/"%char :: rest /\ ("/"%char ∉ base)
             /\ (f = base \/ (s!"." ++ base) `suffix_of` f)).
  { split.
    - intros [= ->]. destruct Hiff as [Hiff _].
      destruct (Hiff eq_refl) as [?|[?|[?|[_ ?]]]]; auto.
    - intros H. f_equal. apply Hiff.
      destruct H as [?|[?|[?|(base & rest & Hr & Hn & Hm)]]]; auto.
      do 3 right. split; [|eauto]. rewrite Hr. apply elem_of_app. right. left. }
  split; [exact Hchar|].
  intros Hslash Hm. apply Hchar in Hm.
  destruct Hm as [?|[?|[?|(base & rest & Hr & Hn & [Hm|Hm])]]]; auto.
  - rewrite Hm in Hslash. done.
  - do 3 right. eauto.
Qed.

Lemma path_split_only_on_ranked_example :
  GenerateImport.domains_match s!"example.com/x.foo.com" s!"foo.com" = Ok true
  /\ (s!"." ++ GenerateImport.normalize_domain s!"foo.com")
       `suffix_of` GenerateImport.normalize_domain s!"example.com/x.foo.com".
Proof.
  split; [reflexivity|].
  destruct path_split_only_on_ranked as (_ & _ & _ & _ & H).
  destruct (H s!"example.com/x.foo.com" s!"foo.com") as (_ & _ & Hfeed).
  assert (Hslash : "/"%char ∈ GenerateImport.normalize_domain s!"example.com/x.foo.com").
  { apply contains_spec. reflexivity. }
  destruct (Hfeed Hslash eq_refl) as [E|[E|[E|(base & rest & E & _)]]].
  - discriminate E.
  - exact E.
  - apply suffix_length in E. vm_compute in E. lia.
  - exfalso. apply (f_equal (Py.contains "/")) in E.
    assert (Hin : Py.contains "/" (base ++ "/"%char :: rest) = true).
    { apply contains_spec, elem_of_app. right. left. }
    rewrite Hin in E. discriminate E.
Defined.

Lemma path_base_example_does_not_match :
  GenerateImport.domains_match
    s!"microsoft.com" s!"devblogs.microsoft.com/oldnewthing" = Ok false
  /\ UpdateRanks.domains_match
       s!"microsoft.com" s!"devblogs.microsoft.com/oldnewthing" = Ok false
  /\ GenerateImport.domains_match
       s!"microsoft.com" s!"devblogs.microsoft.com/oldnewthing" <> Ok true.
Proof. repeat split. by vm_compute. Qed.

(** ** The rank lookup *)

Lemma domains_match_total (f r : str) :
  GenerateImport.domains_match f r = Ok true
  \/ GenerateImport.domains_match f r = Ok false.
Proof.
  destruct (update_ranks_domains_match f r) as ([] & Hb & _);
    rewrite domains_match_agree; auto.
Qed.

(** The lookup of generate-import.py either stops at the first item that
    matches or runs through a list without a match. *)
Lemma find_rank_cases (domain : str) (items : dict GenerateImport.info) :
  (exists pre d inf post,
      items = pre ++ (d, inf) :: post
      /\ (forall e, e ∈ pre -> GenerateImport.domains_match domain e.1 = Ok false)
      /\ GenerateImport.domains_match domain d = Ok true
      /\ GenerateImport.find_rank domain items = Ok (Some (GenerateImport.rank inf)))
  \/ ((forall e, e ∈ items -> GenerateImport.domains_match domain e.1 = Ok false)
      /\ GenerateImport.find_rank domain items = Ok None).
Proof.
  induction items as [|[d inf] items IH]; simpl.
  - right. split; [|done]. intros e He. inversion He.
  - destruct (domains_match_total domain d) as [E|E]; rewrite E; simpl.
    + left. exists [], d, inf, items. repeat split; try done.
      intros e He. inversion He.
    + destruct IH as [(pre & d' & inf' & post & -> & Hpre & Hd & Hf)|[Hall Hf]].
      * left. exists ((d, inf) :: pre), d', inf', post. repeat split; try done.
        intros e [->|He]%elem_of_cons; auto.
      * right. split; [|done]. intros e [->|He]%elem_of_cons; auto.
Qed.

Lemma scan_cases (domain url : str) (matched : Z) (items : dict Z) (out : list str) :
  (exists pre d rank post,
      items = pre ++ (d, rank) :: post
      /\ (forall e, e ∈ pre -> UpdateRanks.domains_match domain e.1 = Ok false)
      /\ UpdateRanks.domains_match domain d = Ok true
      /\ UpdateRanks.scan domain url matched items out
         = (out ++ [UpdateRanks.update_stmt rank url], Ok (matched + 1)%Z))
  \/ ((forall e, e ∈ items -> UpdateRanks.domains_match domain e.1 = Ok false)
      /\ UpdateRanks.scan domain url matched items out = (out, Ok matched)).
Proof.
  induction items as [|[d rank] items IH]; simpl.
  - right. split; [|done]. intros e He. inversion He.
  - unfold mbind at 1, io_bind, lift.
    destruct (domains_match_total domain d) as [E|E];
      rewrite domains_match_agree in E; rewrite E.
    + left. exists [], d, rank, items. repeat split; try done.
      intros e He. inversion He.
    + destruct IH as [(pre & d' & rank' & post & -> & Hpre & Hd & Hf)|[Hall Hf]].
      * left. exists ((d, rank) :: pre), d', rank', post. repeat split; try done.
        intros e [->|He]%elem_of_cons; auto.
      * right. split; [|done]. intros e [->|He]%elem_of_cons; auto.
Qed.

(** C2: the lookup returns the rank of the first item, in the order in which
    the rankings are stored, on which [domains_match] succeeds, and nothing
    when [domains_match] fails on every item.  In generate-import.py the
    result is the value of [rank]; in update-ranks.py it is the rank printed
    in the UPDATE statement, and no statement is printed without a match. *)
Theorem rank_lookup_first_match
    (domain url : str) (matched : Z) (out : list str)
    (rankings : dict GenerateImport.info) (ranks : dict Z) :
  ((exists pre d inf post,
       rankings = pre ++ (d, inf) :: post
       /\ (forall e, e ∈ pre -> GenerateImport.domains_match domain e.1 = Ok false)
       /\ GenerateImport.domains_match domain d = Ok true
       /\ GenerateImport.find_rank domain rankings
          = Ok (Some (GenerateImport.rank inf)))
   \/ ((forall e, e ∈ rankings -> GenerateImport.domains_match domain e.1 = Ok false)
       /\ GenerateImport.find_rank domain rankings = Ok None))
  /\
  ((exists pre d rank post,
       ranks = pre ++ (d, rank) :: post
       /\ (forall e, e ∈ pre -> UpdateRanks.domains_match domain e.1 = Ok false)
       /\ UpdateRanks.domains_match domain d = Ok true
       /\ UpdateRanks.scan domain url matched ranks out
          = (out ++ [UpdateRanks.update_stmt rank url], Ok (matched + 1)%Z))
   \/ ((forall e, e ∈ ranks -> UpdateRanks.domains_match domain e.1 = Ok false)
       /\ UpdateRanks.scan domain url matched ranks out = (out, Ok matched))).
Proof. split; [apply find_rank_cases | apply scan_cases]. Qed.

(** ** Dictionaries *)

Section Setitem.
Context {V : Type}.
Implicit Types (d : dict V) (k : str) (v : V).

Lemma setitem_keys d k v :
  (Py.setitem d k v).*1 = if bool_decide (k ∈ d.*1) then d.*1 else d.*1 ++ [k].
Proof.
  induction d as [|[k' v'] d IH].
  - rewrite bool_decide_eq_false_2; [done|]. inversion 1.
  - cbn [Py.setitem]. rewrite fmap_cons. cbn [fst].
    destruct (decide (k' = k)) as [->|Hne].
    + rewrite (bool_decide_eq_true_2 (k = k)) by done.
      rewrite bool_decide_eq_true_2 by left. done.
    + rewrite (bool_decide_eq_false_2 (k' = k)) by done.
      rewrite fmap_cons, IH. cbn [fst].
      destruct (decide (k ∈ d.*1)) as [Hin|Hin].
      * rewrite (bool_decide_eq_true_2 (k ∈ d.*1)) by done.
        rewrite bool_decide_eq_true_2 by (by right). done.
      * rewrite (bool_decide_eq_false_2 (k ∈ d.*1)) by done.
        rewrite bool_decide_eq_false_2; [done|].
        intros [?|?]%elem_of_cons; congruence.
Qed.

Lemma setitem_keys_prefix d k v : d.*1 `prefix_of` (Py.setitem d k v).*1.
Proof.
  rewrite setitem_keys. case_bool_decide; [done|]. by apply prefix_app_r.
Qed.

Lemma setitem_NoDup d k v : NoDup d.*1 -> NoDup (Py.setitem d k v).*1.
Proof.
  intros H. rewrite setitem_keys. case_bool_decide as E; [done|].
  apply NoDup_app. split; [done|]. split.
  - intros x Hx [->|Hin]%elem_of_cons; [done|inversion Hin].
  - apply NoDup_singleton.
Qed.

Lemma setitem_new d k v : k ∉ d.*1 -> Py.setitem d k v = d ++ [(k, v)].
Proof.
  induction d as [|[k' v'] d IH]; [done|].
  rewrite fmap_cons. cbn [fst Py.setitem].
  intros [? ?]%not_elem_of_cons.
  rewrite bool_decide_eq_false_2 by congruence. by rewrite IH.
Qed.

(** With distinct keys, storing under [k] leaves exactly the new item for
    [k] and the old items for the other keys. *)
Lemma setitem_elem d k v k' v' :
  NoDup d.*1 ->
  (k', v') ∈ Py.setitem d k v <-> (k' = k /\ v' = v) \/ (k' <> k /\ (k', v') ∈ d).
Proof.
  induction d as [|[k0 v0] d IH]; intros Hnd.
  - cbn [Py.setitem]. rewrite list_elem_of_singleton. split.
    + intros [= -> ->]. by left.
    + intros [[-> ->]|[_ H]]; [done|inversion H].
  - rewrite fmap_cons in Hnd. cbn [fst] in Hnd.
    apply NoDup_cons in Hnd as [Hk0 Hnd]. cbn [Py.setitem].
    destruct (decide (k0 = k)) as [->|Hne].
    + rewrite bool_decide_eq_true_2 by done. rewrite !elem_of_cons. split.
      * intros [[= -> ->]|H]; [by left|]. right. split; [|by right].
        intros ->. apply Hk0. by apply (list_elem_of_fmap_2 fst) in H.
      * intros [[-> ->]|[Hne [[= ? ?]|H]]]; [by left|done|by right].
    + rewrite bool_decide_eq_false_2 by done.
      rewrite !elem_of_cons, IH by done. split.
      * intros [[= -> ->]|[[-> ->]|[? ?]]]; [right|by left|right]; split; auto.
      * intros [[-> ->]|[Hne' [[= -> ->]|H]]]; [right; by left|by left|right; by right].
Qed.

End Setitem.

(** ** Loops *)

Lemma for_each_app {A S} (body : S -> A -> result S) (s : S) (l1 l2 : list A) :
  for_each body s (l1 ++ l2) = s' ← for_each body s l1; for_each body s' l2.
Proof.
  revert s. induction l1 as [|x l1 IH]; intros s; simpl; [done|].
  destruct (body s x); simpl; [apply IH|done].
Qed.

Lemma bind_Ok {A B} (m : result A) (f : A -> result B) (b : B) :
  m ≫= f = Ok b -> exists a, m = Ok a /\ f a = Ok b.
Proof. destruct m; simpl; [eauto|discriminate]. Qed.

(** A table ends either with the row in focus or with its last row. *)
Lemma snoc_split {A} (rows pre post : list A) (r row : A) :
  rows ++ [r] = pre ++ row :: post ->
  (post = [] /\ pre = rows /\ row = r)
  \/ exists post', post = post' ++ [r] /\ rows = pre ++ row :: post'.
Proof.
  destruct post as [|x post _] using rev_ind; intros E.
  - left. apply (app_inj_tail rows pre r row) in E as [-> ->]. done.
  - right. exists post. change (row :: post ++ [x]) with ((row :: post) ++ [x]) in E.
    rewrite app_assoc in E. apply app_inj_tail in E as [-> ->]. done.
Qed.

(** ** The ranking loaders *)

(** Both scripts fill [rankings] by the same loop; they differ in the number
    of columns [n] a row needs and in the value [entry] they store. *)
Section Loader.
Context {V : Type}.
Variable n : nat.
Variable entry : list str -> result V.
Variable step : dict V -> list str -> result (dict V).
Hypothesis step_eq : forall acc row,
  step acc row =
    if n <=? length row
    then v ← entry row; Ok (Py.setitem acc (row_domain row) v)
    else Ok acc.

Lemma loader_skips_short acc row : length row < n -> step acc row = Ok acc.
Proof.
  intros H. rewrite step_eq. by rewrite (proj2 (Nat.leb_gt _ _)) by lia.
Qed.

Lemma loader_filter acc rows :
  for_each step acc rows
  = for_each step acc (filter (fun row => n <= length row) rows).
Proof.
  revert acc. induction rows as [|row rows IH]; intros acc; [done|].
  rewrite filter_cons. case_decide as Hn.
  - simpl. destruct (step acc row); simpl; [apply IH|done].
  - simpl. rewrite loader_skips_short by lia. simpl. apply IH.
Qed.

Hypothesis entry_error : forall row,
  (exists v, entry row = Ok v) \/ entry row = Raise ValueError.

Lemma loader_step_cases acc row :
  (exists acc', step acc row = Ok acc') \/ step acc row = Raise ValueError.
Proof.
  rewrite step_eq. destruct (n <=? length row); [|eauto].
  destruct (entry_error row) as [[v ->]| ->]; simpl; eauto.
Qed.

Lemma loader_raises acc rows row :
  row ∈ rows -> n <= length row -> entry row = Raise ValueError ->
  for_each step acc rows = Raise ValueError.
Proof.
  intros Hin Hn He. revert acc.
  induction rows as [|r rows IH]; intros acc; [inversion Hin|].
  simpl. apply elem_of_cons in Hin as [<-|Hin].
  - rewrite step_eq, (proj2 (Nat.leb_le _ _)), He by done. done.
  - destruct (loader_step_cases acc r) as [[acc' ->]| ->]; simpl; auto.
Qed.

Lemma loader_keys_prefix acc rows rk :
  for_each step acc rows = Ok rk -> acc.*1 `prefix_of` rk.*1.
Proof.
  revert acc. induction rows as [|row rows IH]; intros acc; simpl.
  - by intros [= ->].
  - intros (acc' & Hs & Hr)%bind_Ok. apply IH in Hr.
    etrans; [|exact Hr]. rewrite step_eq in Hs.
    destruct (n <=? length row).
    + apply bind_Ok in Hs as (v & _ & [= <-]). apply setitem_keys_prefix.
    + by injection Hs as <-.
Qed.

(** The loaded dictionary has one item per domain, and the item of a domain
    holds the value of the last row of that domain. *)
Lemma loader_last_wins rows rk :
  for_each step [] rows = Ok rk ->
  NoDup rk.*1
  /\ forall k v,
       (k, v) ∈ rk <->
       exists pre row post,
         rows = pre ++ row :: post /\ last_of_domain n row post
         /\ row_domain row = k /\ entry row = Ok v.
Proof.
  revert rk. induction rows as [|r rows IH] using rev_ind; intros rk.
  - intros [= <-]. split; [constructor|]. intros k v. split.
    + inversion 1.
    + intros (pre & row & post & E & _). by destruct pre.
  - rewrite for_each_app. intros (rk0 & H0 & Hs)%bind_Ok.
    destruct (IH rk0 H0) as [Hnd Hel]. simpl in Hs.
    apply bind_Ok in Hs as (rk1 & Hs & [= ->]). rewrite step_eq in Hs.
    destruct (n <=? length r) eqn:Hn.
    + apply Nat.leb_le in Hn.
      apply bind_Ok in Hs as (v0 & Hv0 & [= <-]).
      split; [by apply setitem_NoDup|]. intros k v.
      rewrite setitem_elem by done. split.
      * intros [[-> ->]|[Hne Hin]].
        -- exists rows, r, []. repeat split; try done. inversion 1.
        -- apply Hel in Hin as (pre & row & post & -> & [Hrow Hlast] & Hk & Hv).
           exists pre, row, (post ++ [r]). rewrite <- app_assoc. repeat split; try done.
           intros r' [Hr'| ->%list_elem_of_singleton]%elem_of_app ?; [by apply Hlast|].
           congruence.
      * intros (pre & row & post & E & [Hrow Hlast] & Hk & Hv).
        apply snoc_split in E as [(-> & -> & ->)|(post' & -> & ->)].
        -- left. split; [done|congruence].
        -- right. split.
           ++ rewrite <- Hk. intros Heq. apply (Hlast r); [|done|done].
              apply elem_of_app. right. by left.
           ++ apply Hel. exists pre, row, post'. repeat split; try done.
              intros r' Hr'. apply Hlast. apply elem_of_app. by left.
    + apply Nat.leb_gt in Hn. injection Hs as <-. split; [done|]. intros k v.
      rewrite Hel. split.
      * intros (pre & row & post & -> & [Hrow Hlast] & Hk & Hv).
        exists pre, row, (post ++ [r]). rewrite <- app_assoc. repeat split; try done.
        intros r' [Hr'| ->%list_elem_of_singleton]%elem_of_app ?; [by apply Hlast|lia].
      * intros (pre & row & post & E & [Hrow Hlast] & Hk & Hv).
        apply snoc_split in E as [(-> & -> & ->)|(post' & -> & ->)]; [lia|].
        exists pre, row, post'. repeat split; try done.
        intros r' Hr'. apply Hlast. apply elem_of_app. by left.
Qed.

(** The item of a domain stands where the first row of that domain put it:
    right after the items loaded from the rows before that row. *)
Lemma loader_first_position pre row post rk :
  for_each step [] (pre ++ row :: post) = Ok rk ->
  first_of_domain n pre row ->
  exists rk0 before v after,
    for_each step [] pre = Ok rk0
    /\ rk = before ++ (row_domain row, v) :: after
    /\ before.*1 = rk0.*1.
Proof.
  rewrite for_each_app. intros (rk0 & H0 & Hs)%bind_Ok [Hrow Hfirst].
  simpl in Hs. apply bind_Ok in Hs as (rk1 & Hs & Hrest).
  rewrite step_eq, (proj2 (Nat.leb_le _ _)) in Hs by done.
  apply bind_Ok in Hs as (v1 & Hv1 & [= <-]).
  assert (Hfresh : row_domain row ∉ rk0.*1).
  { intros ([k v] & Hk & Hin)%list_elem_of_fmap. simpl in Hk. subst k.
    destruct (loader_last_wins pre rk0 H0) as [_ Hel].
    apply Hel in Hin as (p & r & q & -> & [Hr _] & Hk & _).
    apply (Hfirst r); [|done|done]. apply elem_of_app. right. by left. }
  rewrite setitem_new in Hrest by done.
  apply loader_keys_prefix in Hrest as [more Hmore].
  rewrite fmap_app, <- app_assoc in Hmore. simpl in Hmore.
  apply fmap_app_inv in Hmore as (before & rest & Hb & Hr & ->).
  symmetry in Hr. apply fmap_cons_inv in Hr as ([k v] & after & Hk & _ & ->).
  simpl in Hk. subst k. exists rk0, before, v, after. done.
Qed.

End Loader.

Lemma int_cases (s : str) :
  (exists z, Py.int s = Ok z) \/ Py.int s = Raise ValueError.
Proof. unfold Py.int. repeat case_match; eauto. Qed.

Lemma generate_import_load_row (acc : dict GenerateImport.info) (row : list str) :
  GenerateImport.load_row acc row =
    if 6 <=? length row
    then v ← info_of_row row; Ok (Py.setitem acc (row_domain row) v)
    else Ok acc.
Proof.
  unfold GenerateImport.load_row. destruct (6 <=? length row) eqn:Hn; [|done].
  destruct row as [|r0 [|r1 [|r2 [|r3 [|r4 [|r5 row]]]]]]; try discriminate Hn.
  unfold info_of_row, row_rank, row_domain, row_author. simpl.
  by destruct (Py.int r0).
Qed.

Lemma update_ranks_load_row (acc : dict Z) (row : list str) :
  UpdateRanks.load_row acc row =
    if 2 <=? length row
    then z ← row_rank row; Ok (Py.setitem acc (row_domain row) z)
    else Ok acc.
Proof.
  unfold UpdateRanks.load_row. destruct (2 <=? length row) eqn:Hn; [|done].
  destruct row as [|r0 [|r1 row]]; try discriminate Hn.
  unfold row_rank, row_domain. simpl. by destruct (Py.int r0).
Qed.

Lemma info_of_row_cases (row : list str) :
  (exists v, info_of_row row = Ok v) \/ info_of_row row = Raise ValueError.
Proof.
  unfold info_of_row.
  destruct (int_cases (default [] (row !! 0))) as [[z Hz]|Hz];
    unfold row_rank; rewrite Hz; simpl; eauto.
Qed.

Lemma info_of_row_Ok (row : list str) (inf : GenerateImport.info) :
  info_of_row row = Ok inf
  <-> row_rank row = Ok (GenerateImport.rank inf)
      /\ row_author row = GenerateImport.author inf.
Proof.
  unfold info_of_row. destruct inf as [z a]. simpl. split.
  - intros (z' & -> & [= -> ->])%bind_Ok. done.
  - intros [-> ->]. done.
Qed.

(** C7 (amended): generate-import.py parses the rows of at least 6 columns
    and update-ranks.py the rows of at least 2 columns; a shorter row leaves
    the rankings as they are and raises nothing, so that loading a table is
    loading its rows of sufficient length. *)
Theorem short_rows_skipped (header : list str) (rows : list (list str)) :
  GenerateImport.load_rankings (header :: rows)
  = GenerateImport.load_rankings
      (header :: filter (fun row => 6 <= length row) rows)
  /\ UpdateRanks.load_rankings (header :: rows)
     = UpdateRanks.load_rankings
         (header :: filter (fun row => 2 <= length row) rows)
  /\ (forall acc row,
        GenerateImport.load_row acc row =
          if 6 <=? length row
          then z ← row_rank row;
               Ok (Py.setitem acc (row_domain row)
                     {| GenerateImport.rank := z;
                        GenerateImport.author := row_author row |})
          else Ok acc)
  /\ (forall acc row,
        UpdateRanks.load_row acc row =
          if 2 <=? length row
          then z ← row_rank row; Ok (Py.setitem acc (row_domain row) z)
          else Ok acc).
Proof.
  split; [|split; [|split]].
  - apply (loader_filter 6 info_of_row), generate_import_load_row.
  - apply (loader_filter 2 row_rank), update_ranks_load_row.
  - intros acc row. rewrite generate_import_load_row.
    unfold info_of_row. by destruct (row_rank row).
  - apply update_ranks_load_row.
Qed.

Lemma update_ranks_parses_two_column_rows :
  UpdateRanks.load_rankings
    [[s!"rank"; s!"domain"]; [s!"5"; s!"example.com"]]
  = Ok [(s!"example.com", 5%Z)]
  /\ UpdateRanks.load_rankings
       [[s!"rank"; s!"domain"]; [s!"five"; s!"example.com"]]
     = Raise ValueError
  /\ GenerateImport.load_rankings
       [[s!"rank"; s!"domain"]; [s!"5"; s!"example.com"]]
     = Ok [].
Proof. repeat split. Qed.

(** C8: when a row that the loader parses has a rank field that [int]
    rejects, loading the rankings raises ValueError and the run ends there
    with nothing printed, in generate-import.py (rows of at least 6 columns)
    and in update-ranks.py (rows of at least 2 columns). *)
Theorem bad_rank_aborts_before_output
    (netloc : str -> result str) (header : list str)
    (rows : list (list str)) (feeds_csv : list (dict (option str)))
    (row : list str) :
  row ∈ rows ->
  row_rank row = Raise ValueError ->
  (6 <= length row ->
     GenerateImport.load_rankings (header :: rows) = Raise ValueError
     /\ run (GenerateImport.main netloc (header :: rows) feeds_csv)
        = ([], Raise ValueError))
  /\ (2 <= length row ->
        UpdateRanks.load_rankings (header :: rows) = Raise ValueError
        /\ run (UpdateRanks.script netloc (header :: rows) feeds_csv)
           = ([], Raise ValueError)).
Proof.
  intros Hin Hbad. split; intros Hn.
  - assert (E : GenerateImport.load_rankings (header :: rows) = Raise ValueError).
    { apply (loader_raises 6 info_of_row) with (row := row);
        auto using generate_import_load_row, info_of_row_cases.
      unfold info_of_row. by rewrite Hbad. }
    split; [done|]. unfold run, GenerateImport.main.
    unfold mbind at 1, io_bind, lift. by rewrite E.
  - assert (E : UpdateRanks.load_rankings (header :: rows) = Raise ValueError).
    { apply (loader_raises 2 row_rank) with (row := row);
        auto using update_ranks_load_row.
      intros r. apply int_cases. }
    split; [done|]. unfold run, UpdateRanks.script.
    unfold mbind at 1, io_bind, lift. by rewrite E.
Qed.

Lemma bad_rank_aborts_example :
  run (GenerateImport.main netloc_of
         [[s!"rank"; s!"domain"; s!"c"; s!"d"; s!"e"; s!"author"];
          [s!"1"; s!"example.com"; s!""; s!""; s!""; s!"A"];
          [s!"first"; s!"foo.com"; s!""; s!""; s!""; s!"B"]]
         [[(s!"name", Some s!"Ex"); (s!"url", Some s!"https://example.com/feed")]])
  = ([], Raise ValueError)
  /\ run (UpdateRanks.script netloc_of
            [[s!"rank"; s!"domain"; s!"c"; s!"d"; s!"e"; s!"author"];
             [s!"1"; s!"example.com"; s!""; s!""; s!""; s!"A"];
             [s!"first"; s!"foo.com"; s!""; s!""; s!""; s!"B"]]
            [[(s!"name", Some s!"Ex"); (s!"url", Some s!"https://example.com/feed")]])
     = ([], Raise ValueError).
Proof.
  destruct (bad_rank_aborts_before_output netloc_of
              [s!"rank"; s!"domain"; s!"c"; s!"d"; s!"e"; s!"author"]
              [[s!"1"; s!"example.com"; s!""; s!""; s!""; s!"A"];
               [s!"first"; s!"foo.com"; s!""; s!""; s!""; s!"B"]]
              [[(s!"name", Some s!"Ex"); (s!"url", Some s!"https://example.com/feed")]]
              [s!"first"; s!"foo.com"; s!""; s!""; s!""; s!"B"]) as [H6 H2].
  - right. left.
  - reflexivity.
  - split; [apply H6 | apply H2]; simpl; lia.
Defined.

(** C9: when the rankings load, the dictionary has one item per domain; the
    item of a domain holds the rank (and author) of the last parsed row of
    that domain and stands at the place of the first parsed row of that
    domain; so a rank that the lookup returns is the rank of a row that is
    the last of its domain. *)
Theorem duplicate_domain_rows (header : list str) (rows : list (list str)) :
  (forall rk : dict GenerateImport.info,
     GenerateImport.load_rankings (header :: rows) = Ok rk ->
     NoDup rk.*1
     /\ (forall k inf,
           (k, inf) ∈ rk <->
           exists pre row post,
             rows = pre ++ row :: post /\ last_of_domain 6 row post
             /\ row_domain row = k
             /\ row_rank row = Ok (GenerateImport.rank inf)
             /\ row_author row = GenerateImport.author inf)
     /\ (forall pre row post,
           rows = pre ++ row :: post -> first_of_domain 6 pre row ->
           exists rk0 before inf after,
             GenerateImport.load_rankings (header :: pre) = Ok rk0
             /\ rk = before ++ (row_domain row, inf) :: after
             /\ before.*1 = rk0.*1)
     /\ (forall domain r,
           GenerateImport.find_rank domain rk = Ok (Some r) ->
           exists pre row post,
             rows = pre ++ row :: post /\ last_of_domain 6 row post
             /\ row_rank row = Ok r
             /\ GenerateImport.domains_match domain (row_domain row) = Ok true))
  /\
  (forall ranks : dict Z,
     UpdateRanks.load_rankings (header :: rows) = Ok ranks ->
     NoDup ranks.*1
     /\ (forall k z,
           (k, z) ∈ ranks <->
           exists pre row post,
             rows = pre ++ row :: post /\ last_of_domain 2 row post
             /\ row_domain row = k /\ row_rank row = Ok z)
     /\ (forall pre row post,
           rows = pre ++ row :: post -> first_of_domain 2 pre row ->
           exists rk0 before z after,
             UpdateRanks.load_rankings (header :: pre) = Ok rk0
             /\ ranks = before ++ (row_domain row, z) :: after
             /\ before.*1 = rk0.*1)
     /\ (forall domain url matched out out' matched',
           UpdateRanks.scan domain url matched ranks out = (out', Ok matched') ->
           (out' = out /\ matched' = matched)
           \/ exists pre row post r,
                rows = pre ++ row :: post /\ last_of_domain 2 row post
                /\ row_rank row = Ok r
                /\ UpdateRanks.domains_match domain (row_domain row) = Ok true
                /\ out' = out ++ [UpdateRanks.update_stmt r url]
                /\ matched' = (matched + 1)%Z)).
Proof.
  split.
  - intros rk Hload. simpl in Hload.
    destruct (loader_last_wins 6 info_of_row _ generate_import_load_row rows rk Hload)
      as [Hnd Hel].
    assert (Hel' : forall k inf,
      (k, inf) ∈ rk <->
      exists pre row post,
        rows = pre ++ row :: post /\ last_of_domain 6 row post
        /\ row_domain row = k
        /\ row_rank row = Ok (GenerateImport.rank inf)
        /\ row_author row = GenerateImport.author inf).
    { intros k inf. rewrite Hel. split.
      - intros (pre & row & post & E & Hl & Hk & Hv%info_of_row_Ok).
        exists pre, row, post. tauto.
      - intros (pre & row & post & E & Hl & Hk & Hv).
        exists pre, row, post. rewrite info_of_row_Ok. tauto. }
    split; [done|]. split; [done|]. split.
    + intros pre row post -> Hfirst. simpl.
      eapply (loader_first_position 6 info_of_row); eauto using generate_import_load_row.
    + intros domain r Hfind.
      destruct (find_rank_cases domain rk)
        as [(pre & d & inf & post & E & _ & Hm & Hf)|[_ Hf]];
        rewrite Hf in Hfind; [|discriminate].
      injection Hfind as <-.
      assert (Hin : (d, inf) ∈ rk).
      { rewrite E. apply elem_of_app. right. left. }
      apply Hel' in Hin as (p & row & q & Er & Hl & Hk & Hr & _).
      exists p, row, q. rewrite Hk. done.
  - intros ranks Hload. simpl in Hload.
    destruct (loader_last_wins 2 row_rank _ update_ranks_load_row rows ranks Hload)
      as [Hnd Hel].
    split; [done|]. split; [done|]. split.
    + intros pre row post -> Hfirst. simpl.
      eapply (loader_first_position 2 row_rank); eauto using update_ranks_load_row.
    + intros domain url matched out out' matched' Hscan.
      destruct (scan_cases domain url matched ranks out)
        as [(pre & d & r & post & E & _ & Hm & Hf)|[_ Hf]];
        rewrite Hf in Hscan; injection Hscan as <- <-; [right|by left].
      assert (Hin : (d, r) ∈ ranks).
      { rewrite E. apply elem_of_app. right. left. }
      apply Hel in Hin as (p & row & q & Er & Hl & Hk & Hr).
      exists p, row, q, r. rewrite Hk. done.
Qed.

Lemma duplicate_domain_rows_example :
  GenerateImport.load_rankings
    [[s!"rank"; s!"domain"; s!"c"; s!"d"; s!"e"; s!"author"];
     [s!"1"; s!"Example.com "; s!""; s!""; s!""; s!"A"];
     [s!"2"; s!"other.org"; s!""; s!""; s!""; s!"B"];
     [s!"3"; s!"example.com"; s!""; s!""; s!""; s!"C"]]
  = Ok [(s!"example.com",
          {| GenerateImport.rank := 3; GenerateImport.author := s!"C" |});
        (s!"other.org",
          {| GenerateImport.rank := 2; GenerateImport.author := s!"B" |})]
  /\ NoDup [s!"example.com"; s!"other.org"]
  /\ exists pre row post,
       [[s!"1"; s!"Example.com "; s!""; s!""; s!""; s!"A"];
        [s!"2"; s!"other.org"; s!""; s!""; s!""; s!"B"];
        [s!"3"; s!"example.com"; s!""; s!""; s!""; s!"C"]]
       = pre ++ row :: post
       /\ last_of_domain 6 row post
       /\ row_rank row = Ok 3%Z
       /\ GenerateImport.domains_match s!"blog.example.com" (row_domain row)
          = Ok true.
Proof.
  split; [reflexivity|].
  destruct (duplicate_domain_rows
              [s!"rank"; s!"domain"; s!"c"; s!"d"; s!"e"; s!"author"]
              [[s!"1"; s!"Example.com "; s!""; s!""; s!""; s!"A"];
               [s!"2"; s!"other.org"; s!""; s!""; s!""; s!"B"];
               [s!"3"; s!"example.com"; s!""; s!""; s!""; s!"C"]]) as [H _].
  destruct (H _ eq_refl) as (Hnd & _ & _ & Hfind).
  split; [exact Hnd|].
  apply (Hfind s!"blog.example.com" 3%Z). reflexivity.
Defined.

(** ** The insert generator *)

Lemma find_rank_total (domain : str) (items : dict GenerateImport.info) :
  exists rank, GenerateImport.find_rank domain items = Ok rank.
Proof.
  destruct (find_rank_cases domain items)
    as [(pre & d & inf & post & _ & _ & _ & ->)|[_ ->]]; eauto.
Qed.

(** One turn of the loop prints one INSERT statement and adds one to one of
    the two counters; which one is decided by [if rank:], which is false for
    [None] and for 0. *)
Lemma emit_feed_run (rankings : dict GenerateImport.info) (matched unmatched : Z)
    (f : GenerateImport.feed) (out : list str) :
  exists rank,
    GenerateImport.find_rank (GenerateImport.domain f) rankings = Ok rank
    /\ GenerateImport.emit_feed rankings (matched, unmatched) f out
       = match rank with
         | Some z =>
             if (z =? 0)%Z
             then (out ++ [GenerateImport.insert_stmt f s!"NULL"],
                   Ok (matched, (unmatched + 1)%Z))
             else (out ++ [GenerateImport.insert_stmt f (Py.str_of_int z)],
                   Ok ((matched + 1)%Z, unmatched))
         | None =>
             (out ++ [GenerateImport.insert_stmt f s!"NULL"],
              Ok (matched, (unmatched + 1)%Z))
         end.
Proof.
  destruct (find_rank_total (GenerateImport.domain f) rankings) as [rank Hr].
  exists rank. split; [done|].
  unfold GenerateImport.emit_feed, mbind, io_bind, lift. rewrite Hr.
  destruct rank as [z|]; [|done]. simpl. by destruct (z =? 0)%Z.
Qed.

Lemma insert_loop_run (rankings : dict GenerateImport.info)
    (feeds : list GenerateImport.feed) (counts : Z * Z) (out : list str) :
  exists inserts counts',
    for_each_io (GenerateImport.emit_feed rankings) counts feeds out
    = (out ++ inserts, Ok counts')
    /\ Forall2 (fun f line => exists rank_val,
                  line = GenerateImport.insert_stmt f rank_val) feeds inserts
    /\ (counts'.1 + counts'.2 = counts.1 + counts.2 + Py.len feeds)%Z
    /\ (counts.1 <= counts'.1)%Z /\ (counts.2 <= counts'.2)%Z.
Proof.
  revert counts out. induction feeds as [|f feeds IH]; intros [m u] out.
  - exists [], (m, u). rewrite app_nil_r. unfold Py.len. simpl.
    repeat split; try done; lia.
  - destruct (emit_feed_run rankings m u f out) as (rank & _ & Hstep).
    assert (exists rank_val counts1,
      GenerateImport.emit_feed rankings (m, u) f out
      = (out ++ [GenerateImport.insert_stmt f rank_val], Ok counts1)
      /\ (counts1.1 + counts1.2 = m + u + 1)%Z
      /\ (m <= counts1.1)%Z /\ (u <= counts1.2)%Z) as (rv & c1 & Hs & Hsum & Hm & Hu).
    { destruct rank as [z|]; [destruct (z =? 0)%Z|];
        eexists _, _; (split; [exact Hstep|]); simpl; lia. }
    destruct (IH c1 (out ++ [GenerateImport.insert_stmt f rv]))
      as (inserts & c2 & Hloop & Hall & Hsum2 & Hm2 & Hu2).
    exists (GenerateImport.insert_stmt f rv :: inserts), c2.
    cbn [for_each_io]. unfold mbind at 1, io_bind. rewrite Hs, Hloop.
    rewrite <- app_assoc. split; [done|]. split.
    + constructor; eauto.
    + unfold Py.len in *. simpl fst in *. simpl snd in *.
      rewrite length_cons. lia.
Qed.

Lemma load_feed_cases (netloc : str -> result str)
    (acc acc1 : list GenerateImport.feed) (row : dict (option str)) :
  GenerateImport.load_feed netloc acc row = Ok acc1 ->
  (trimmed_url row = None /\ acc1 = acc
   /\ forall acc', GenerateImport.load_feed netloc acc' row = Ok acc')
  \/ exists f,
       trimmed_url row = Some (GenerateImport.url f) /\ acc1 = acc ++ [f]
       /\ forall acc', GenerateImport.load_feed netloc acc' row = Ok (acc' ++ [f]).
Proof.
  unfold GenerateImport.load_feed, trimmed_url.
  intros (fname & Hfn & H)%bind_Ok. rewrite Hfn. cbn [mbind result_bind].
  apply bind_Ok in H as (name & Hname & H). rewrite Hname. cbn [mbind result_bind].
  apply bind_Ok in H as (furl & Hfu & H). rewrite Hfu. cbn [mbind result_bind].
  apply bind_Ok in H as (url & Hurl & H). rewrite Hurl. cbn [mbind result_bind].
  destruct furl as [u|]; [|discriminate]. injection Hurl as <-.
  case_bool_decide as Hne.
  - apply bind_Ok in H as (d & Hd & [= <-]). right.
    exists {| GenerateImport.name := name; GenerateImport.url := Py.strip u;
              GenerateImport.domain := d |}.
    rewrite Hd. cbn [mbind result_bind GenerateImport.url]. done.
  - injection H as <-. left. done.
Qed.

Lemma load_feeds_acc (netloc : str -> result str)
    (acc feeds : list GenerateImport.feed) (rows : list (dict (option str))) :
  for_each (GenerateImport.load_feed netloc) acc rows = Ok feeds ->
  exists new,
    feeds = acc ++ new
    /\ GenerateImport.url <$> new = omap trimmed_url rows
    /\ forall acc',
         for_each (GenerateImport.load_feed netloc) acc'
           (filter (fun row => is_Some (trimmed_url row)) rows)
         = Ok (acc' ++ new).
Proof.
  revert acc. induction rows as [|row rows IH]; intros acc; simpl.
  - intros [= <-]. exists []. rewrite app_nil_r. split; [done|]. split; [done|].
    intros acc'. by rewrite app_nil_r.
  - intros (acc1 & Hrow & Hrest)%bind_Ok.
    destruct (IH _ Hrest) as (new & -> & Hurl & Hfilter).
    apply load_feed_cases in Hrow as [(Hnone & -> & Hskip)|(f & Hsome & -> & Hkeep)].
    + exists new. rewrite Hnone. split; [done|]. split; [done|].
      intros acc'. rewrite filter_cons, Hnone.
      rewrite decide_False by (by intros [? ?]). apply Hfilter.
    + exists (f :: new). rewrite Hsome, <- app_assoc. split; [done|].
      split; [by rewrite fmap_cons, Hurl|].
      intros acc'. rewrite filter_cons, Hsome.
      rewrite decide_True by eauto. simpl. rewrite Hkeep. simpl.
      rewrite Hfilter. by rewrite <- app_assoc.
Qed.

(** C4 (the code departs from the claim at rank 0): every turn of the loop
    prints one INSERT statement; the statement carries the rank and [matched]
    grows when the lookup returns a rank other than 0, and it carries NULL
    and [unmatched] grows when the lookup returns nothing, but also when it
    returns the rank 0.  update-ranks.py prints rank 0 and counts the feed as
    matched. *)
Theorem rank_zero_counted_unmatched :
  (forall rankings matched unmatched f out,
     exists rank,
       GenerateImport.find_rank (GenerateImport.domain f) rankings = Ok rank
       /\ GenerateImport.emit_feed rankings (matched, unmatched) f out
          = match rank with
            | Some z =>
                if (z =? 0)%Z
                then (out ++ [GenerateImport.insert_stmt f s!"NULL"],
                      Ok (matched, (unmatched + 1)%Z))
                else (out ++ [GenerateImport.insert_stmt f (Py.str_of_int z)],
                      Ok ((matched + 1)%Z, unmatched))
            | None =>
                (out ++ [GenerateImport.insert_stmt f s!"NULL"],
                 Ok (matched, (unmatched + 1)%Z))
            end)
  /\ GenerateImport.load_rankings
       [[s!"rank"; s!"domain"; s!"c"; s!"d"; s!"e"; s!"author"];
        [s!"0"; s!"example.com"; s!""; s!""; s!""; s!"Author"]]
     = Ok [(s!"example.com",
             {| GenerateImport.rank := 0; GenerateImport.author := s!"Author" |})]
  /\ GenerateImport.find_rank s!"example.com"
       [(s!"example.com",
          {| GenerateImport.rank := 0; GenerateImport.author := s!"Author" |})]
     = Ok (Some 0%Z)
  /\ run (GenerateImport.main netloc_of
            [[s!"rank"; s!"domain"; s!"c"; s!"d"; s!"e"; s!"author"];
             [s!"0"; s!"example.com"; s!""; s!""; s!""; s!"Author"]]
            [[(s!"name", Some s!"Ex");
              (s!"url", Some s!"https://www.example.com/feed")]])
     = ([s!"-- Loaded 1 rankings and 1 feeds"; s!""; s!"-- Feed inserts"; s!"";
         s!"INSERT OR IGNORE INTO feeds (name, url, domain, rank) VALUES ('Ex', 'https://www.example.com/feed', 'example.com', NULL);";
         s!""; s!"-- Summary: 0 ranked feeds, 1 unranked feeds"],
        Ok (0%Z, 1%Z))
  /\ run (UpdateRanks.script netloc_of
            [[s!"rank"; s!"domain"; s!"c"; s!"d"; s!"e"; s!"author"];
             [s!"0"; s!"example.com"; s!""; s!""; s!""; s!"Author"]]
            [[(s!"name", Some s!"Ex");
              (s!"url", Some s!"https://www.example.com/feed")]])
     = ([s!"UPDATE feeds SET rank = 0 WHERE url = 'https://www.example.com/feed';";
         s!"-- Matched 1 feeds to rankings"],
        Ok 1%Z).
Proof.
  split; [intros; apply emit_feed_run|].
  repeat split; by vm_compute.
Qed.

Lemma print_bind {A} (line : str) (k : unit -> io A) (out : list str) :
  (print line ≫= k) out = k tt (out ++ [line]).
Proof. reflexivity. Qed.

Lemma io_bind_Ok {A B} (m : io A) (k : A -> io B) (out out' : list str) (a : A) :
  m out = (out', Ok a) -> (m ≫= k) out = k a out'.
Proof. intros H. unfold mbind, io_bind. by rewrite H. Qed.

(** What [main] prints once both tables are loaded. *)
Lemma main_run (netloc : str -> result str) (top100 : list (list str))
    (feeds_csv : list (dict (option str)))
    (rankings : dict GenerateImport.info) (feeds : list GenerateImport.feed) :
  GenerateImport.load_rankings top100 = Ok rankings ->
  GenerateImport.load_feeds netloc feeds_csv = Ok feeds ->
  exists inserts counts,
    run (GenerateImport.main netloc top100 feeds_csv)
    = ([s!"-- Loaded " ++ Py.str_of_int (Py.len rankings)
        ++ s!" rankings and " ++ Py.str_of_int (Py.len feeds) ++ s!" feeds";
        s!""; s!"-- Feed inserts"; s!""]
       ++ inserts ++ [s!""; GenerateImport.summary counts],
       Ok counts)
    /\ Forall2 (fun f line => exists rank_val,
                  line = GenerateImport.insert_stmt f rank_val) feeds inserts
    /\ (counts.1 + counts.2 = Py.len feeds)%Z
    /\ (0 <= counts.1)%Z /\ (0 <= counts.2)%Z.
Proof.
  intros Hr Hf. unfold run, GenerateImport.main.
  unfold mbind at 1, io_bind at 1, lift at 1. rewrite Hr.
  unfold mbind at 1, io_bind at 1, lift at 1. rewrite Hf.
  rewrite !print_bind.
  match goal with |- context [for_each_io _ _ _ ≫= _] =>
    match goal with |- exists _ _, (_ ≫= _) ?o = _ /\ _ =>
      destruct (insert_loop_run rankings feeds (0%Z, 0%Z) o)
        as (inserts & counts & Hloop & Hall & Hsum & Hm & Hu)
    end
  end.
  exists inserts, counts.
  rewrite (io_bind_Ok _ _ _ _ _ Hloop), !print_bind.
  simpl in Hsum, Hm, Hu. split; [|done].
  unfold mret, io_ret. f_equal. by rewrite <- !app_assoc.
Qed.

Lemma main_raises (netloc : str -> result str) (top100 : list (list str))
    (feeds_csv : list (dict (option str))) (e : exn) :
  GenerateImport.load_rankings top100 = Raise e
  \/ ((exists rankings, GenerateImport.load_rankings top100 = Ok rankings)
      /\ GenerateImport.load_feeds netloc feeds_csv = Raise e) ->
  run (GenerateImport.main netloc top100 feeds_csv) = ([], Raise e).
Proof.
  unfold run, GenerateImport.main. intros [Hr|[[rankings Hr] Hf]].
  - unfold mbind at 1, io_bind at 1, lift at 1. by rewrite Hr.
  - unfold mbind at 1, io_bind at 1, lift at 1. rewrite Hr.
    unfold mbind at 1, io_bind at 1, lift at 1. by rewrite Hf.
Qed.

Lemma main_same_feeds (netloc : str -> result str) (top100 : list (list str))
    (rows1 rows2 : list (dict (option str))) :
  GenerateImport.load_feeds netloc rows1 = GenerateImport.load_feeds netloc rows2 ->
  run (GenerateImport.main netloc top100 rows1)
  = run (GenerateImport.main netloc top100 rows2).
Proof.
  intros H. unfold run, GenerateImport.main.
  unfold mbind at 1, io_bind at 1, lift at 1.
  symmetry. unfold mbind at 1, io_bind at 1, lift at 1. symmetry.
  destruct (GenerateImport.load_rankings top100); [|done].
  unfold mbind at 1, io_bind at 1, lift at 1.
  symmetry. unfold mbind at 1, io_bind at 1, lift at 1. symmetry.
  by rewrite H.
Qed.

(** C10: when the insert generator finishes, the loaded feeds are the rows
    with a non-empty trimmed url, in order; the output holds one INSERT line
    per loaded feed between the heading and the summary; every turn of the
    loop prints one line and adds one to exactly one counter, so that
    [matched + unmatched] is the number of loaded feeds; and the rows with an
    empty url can be removed from the table without changing the output or
    the counters. *)
Theorem insert_generator_counts
    (netloc : str -> result str) (top100 : list (list str))
    (feeds_csv : list (dict (option str)))
    (out : list str) (matched unmatched : Z) :
  run (GenerateImport.main netloc top100 feeds_csv)
  = (out, Ok (matched, unmatched)) ->
  exists rankings feeds inserts,
    GenerateImport.load_rankings top100 = Ok rankings
    /\ GenerateImport.load_feeds netloc feeds_csv = Ok feeds
    /\ GenerateImport.url <$> feeds = omap trimmed_url feeds_csv
    /\ out = [s!"-- Loaded " ++ Py.str_of_int (Py.len rankings)
              ++ s!" rankings and " ++ Py.str_of_int (Py.len feeds)
              ++ s!" feeds";
              s!""; s!"-- Feed inserts"; s!""]
             ++ inserts
             ++ [s!""; GenerateImport.summary (matched, unmatched)]
    /\ Forall2 (fun f line => exists rank_val,
                  line = GenerateImport.insert_stmt f rank_val) feeds inserts
    /\ (forall m u f o, exists rank_val,
          GenerateImport.emit_feed rankings (m, u) f o
          = (o ++ [GenerateImport.insert_stmt f rank_val], Ok ((m + 1)%Z, u))
          \/ GenerateImport.emit_feed rankings (m, u) f o
             = (o ++ [GenerateImport.insert_stmt f rank_val], Ok (m, (u + 1)%Z)))
    /\ (matched + unmatched = Py.len feeds)%Z
    /\ (0 <= matched)%Z /\ (0 <= unmatched)%Z
    /\ run (GenerateImport.main netloc top100
              (filter (fun row => is_Some (trimmed_url row)) feeds_csv))
       = (out, Ok (matched, unmatched)).
Proof.
  intros Hrun.
  destruct (GenerateImport.load_rankings top100) as [rankings|e] eqn:Hr.
  2: { rewrite (main_raises netloc top100 feeds_csv e) in Hrun by auto. discriminate. }
  destruct (GenerateImport.load_feeds netloc feeds_csv) as [feeds|e] eqn:Hf.
  2: { rewrite (main_raises netloc top100 feeds_csv e) in Hrun by eauto. discriminate. }
  destruct (main_run netloc top100 feeds_csv rankings feeds Hr Hf)
    as (inserts & counts & Hmain & Hall & Hsum & Hm & Hu).
  rewrite Hmain in Hrun. injection Hrun as <- ->.
  destruct (load_feeds_acc netloc [] feeds feeds_csv Hf) as (new & -> & Hurl & Hfilter).
  exists rankings, new, inserts. simpl in *.
  repeat (split; [done|]). split.
  { intros m u f o. destruct (emit_feed_run rankings m u f o) as (rank & _ & Hs).
    destruct rank as [z|]; [destruct (z =? 0)%Z|]; eauto. }
  repeat (split; [done|]).
  rewrite <- Hmain. apply main_same_feeds.
  rewrite Hf. apply (Hfilter []).
Qed.

Lemma insert_generator_counts_example :
  exists rankings feeds (inserts : list str),
    GenerateImport.load_rankings
      [[s!"rank"; s!"domain"; s!"c"; s!"d"; s!"e"; s!"author"];
       [s!"1"; s!"example.com"; s!""; s!""; s!""; s!"Author"]]
    = Ok rankings
    /\ GenerateImport.load_feeds netloc_of
         [[(s!"name", Some s!"Ex"); (s!"url", Some s!"https://www.example.com/feed")];
          [(s!"name", Some s!"None"); (s!"url", Some s!"  ")];
          [(s!"name", Some s!"Foo"); (s!"url", Some s!" https://foo.org/rss ")]]
       = Ok feeds
    /\ GenerateImport.url <$> feeds
       = [s!"https://www.example.com/feed"; s!"https://foo.org/rss"]
    /\ length inserts = 2
    /\ (1 + 1 = Py.len feeds)%Z.
Proof.
  assert (Hrun : exists out,
    run (GenerateImport.main netloc_of
           [[s!"rank"; s!"domain"; s!"c"; s!"d"; s!"e"; s!"author"];
            [s!"1"; s!"example.com"; s!""; s!""; s!""; s!"Author"]]
           [[(s!"name", Some s!"Ex"); (s!"url", Some s!"https://www.example.com/feed")];
            [(s!"name", Some s!"None"); (s!"url", Some s!"  ")];
            [(s!"name", Some s!"Foo"); (s!"url", Some s!" https://foo.org/rss ")]])
    = (out, Ok (1%Z, 1%Z))) by (eexists; reflexivity).
  destruct Hrun as [out Hrun].
  destruct (insert_generator_counts _ _ _ _ _ _ Hrun)
    as (rk & fs & ins & Hr & Hf & Hu & _ & Hall & _ & Hsum & _).
  exists rk, fs, ins. split; [exact Hr|]. split; [exact Hf|]. split; [exact Hu|].
  split; [|exact Hsum].
  apply Forall2_length in Hall. rewrite <- Hall.
  apply (f_equal length) in Hu. rewrite length_fmap in Hu. exact Hu.
Defined.

(** * Further properties of the scripts *)

(** ** Normalization and the matcher *)

Lemma isspace_lower_char (c : ascii) : Py.isspace (Py.lower_char c) = Py.isspace c.
Proof. destruct c as [[] [] [] [] [] [] [] []]; reflexivity. Qed.

Lemma lstrip_lower (s : str) : Py.lstrip (Py.lower s) = Py.lower (Py.lstrip s).
Proof.
  induction s as [|c s IH]; [done|].
  unfold Py.lower in *. rewrite fmap_cons. cbn [Py.lstrip].
  rewrite isspace_lower_char. destruct (Py.isspace c); [exact IH|done].
Qed.

Lemma rstrip_lower (s : str) : Py.rstrip (Py.lower s) = Py.lower (Py.rstrip s).
Proof.
  unfold Py.rstrip. unfold Py.lower at 1. rewrite <- fmap_reverse.
  fold (Py.lower (reverse s)). rewrite lstrip_lower.
  unfold Py.lower. by rewrite fmap_reverse.
Qed.

Lemma strip_lower (s : str) : Py.strip (Py.lower s) = Py.lower (Py.strip s).
Proof. unfold Py.strip. by rewrite lstrip_lower, rstrip_lower. Qed.

Lemma strip_idem (s : str) : Py.strip (Py.strip s) = Py.strip s.
Proof. apply strip_fixed_iff. split; [apply strip_lstrip|apply strip_rstrip]. Qed.

Lemma normalize_domain_of_lower (x : str) :
  GenerateImport.normalize_domain (Py.lower x) = GenerateImport.normalize_domain x.
Proof. unfold GenerateImport.normalize_domain. by rewrite lower_idem. Qed.

Lemma normalize_domain_of_strip (x : str) :
  GenerateImport.normalize_domain (Py.strip x) = GenerateImport.normalize_domain x.
Proof.
  unfold GenerateImport.normalize_domain.
  by rewrite <- strip_lower, strip_idem.
Qed.

(** The matcher sees its arguments through [normalize_domain] only. *)
Lemma domains_match_normalized (f f' r r' : str) :
  GenerateImport.normalize_domain f = GenerateImport.normalize_domain f' ->
  GenerateImport.normalize_domain r = GenerateImport.normalize_domain r' ->
  GenerateImport.domains_match f r = GenerateImport.domains_match f' r'.
Proof.
  intros Hf Hr. unfold GenerateImport.domains_match. by rewrite Hf, Hr.
Qed.

(** X1: matching ignores the case and the surrounding whitespace of either
    argument. *)
Theorem matching_ignores_case_and_whitespace (f r : str) :
  GenerateImport.normalize_domain (Py.lower f) = GenerateImport.normalize_domain f
  /\ GenerateImport.normalize_domain (Py.strip f) = GenerateImport.normalize_domain f
  /\ GenerateImport.domains_match (Py.lower f) r = GenerateImport.domains_match f r
  /\ GenerateImport.domains_match (Py.strip f) r = GenerateImport.domains_match f r
  /\ GenerateImport.domains_match f (Py.lower r) = GenerateImport.domains_match f r
  /\ GenerateImport.domains_match f (Py.strip r) = GenerateImport.domains_match f r.
Proof.
  split; [apply normalize_domain_of_lower|].
  split; [apply normalize_domain_of_strip|].
  repeat split; apply domains_match_normalized;
    auto using normalize_domain_of_lower, normalize_domain_of_strip.
Qed.

Lemma lstrip_app_fixed (u v : str) :
  v <> [] -> Py.lstrip v = v -> Py.lstrip (u ++ v) = Py.lstrip u ++ v.
Proof.
  intros Hne Hv. induction u as [|c u IH]; simpl.
  - by rewrite Hv.
  - destruct (Py.isspace c); [exact IH|done].
Qed.

Lemma startswith_app (p s : str) : Py.startswith (p ++ s) p = true.
Proof. apply startswith_spec. by exists s. Qed.

(** X2: the result of [normalize_domain] is lower-case, has no trailing
    whitespace and is never longer than the lower-cased input: it is the
    trimmed lower-cased input, or that text without its first four characters
    "www.".  In front of a lower-case string, one "www." is removed without
    trimming what follows it on the left. *)
Theorem normalize_domain_shape (x : str) :
  let n := GenerateImport.normalize_domain x in
  Py.lower n = n
  /\ Py.rstrip n = n
  /\ length n <= length (Py.lower x)
  /\ (n = Py.strip (Py.lower x) \/ Py.strip (Py.lower x) = s!"www." ++ n)
  /\ (Py.lower x = x ->
      GenerateImport.normalize_domain (s!"www." ++ x) = Py.rstrip x).
Proof.
  intros n. split; [apply normalize_domain_lower|].
  split; [apply normalize_domain_rstrip|].
  split; [|split].
  - pose proof (strip_length (Py.lower x)).
    unfold n, GenerateImport.normalize_domain.
    destruct (Py.startswith _ _); [rewrite length_drop|]; lia.
  - unfold n, GenerateImport.normalize_domain.
    destruct (Py.startswith _ _) eqn:Hw; [right|by left].
    apply startswith_spec in Hw as [k Hk]. by rewrite Hk.
  - intros Hx. unfold GenerateImport.normalize_domain.
    assert (E : Py.strip (Py.lower (s!"www." ++ x)) = s!"www." ++ Py.rstrip x).
    { unfold Py.lower at 1. rewrite fmap_app. fold (Py.lower x). rewrite Hx.
      change (Py.lower_char <$> s!"www.") with s!"www.".
      unfold Py.strip. change (Py.lstrip (s!"www." ++ x)) with (s!"www." ++ x).
      unfold Py.rstrip. rewrite reverse_app, lstrip_app_fixed by done.
      by rewrite reverse_app, reverse_involutive. }
    rewrite E, startswith_app. done.
Qed.

Lemma normalize_domain_shape_example :
  GenerateImport.normalize_domain s!"www. example.com " = s!" example.com".
Proof.
  destruct (normalize_domain_shape s!" example.com ") as (_ & _ & _ & _ & H).
  exact (H eq_refl).
Defined.

(** X3: between two domains without a path the matcher is symmetric; the
    path rule is the only one that treats its arguments differently. *)
Theorem domains_match_symmetric_without_paths (f r : str) :
  "/"%char ∉ GenerateImport.normalize_domain f ->
  "/"%char ∉ GenerateImport.normalize_domain r ->
  GenerateImport.domains_match f r = GenerateImport.domains_match r f.
Proof.
  intros Hf Hr.
  destruct (update_ranks_domains_match f r) as (b1 & H1 & I1).
  destruct (update_ranks_domains_match r f) as (b2 & H2 & I2).
  rewrite !domains_match_agree, H1, H2. f_equal.
  change UpdateRanks.normalize_domain with GenerateImport.normalize_domain in *.
  destruct b1, b2; try done.
  - destruct I1 as [I1 _]. destruct I2 as [_ I2].
    destruct (I1 eq_refl) as [E|[E|[E|[E _]]]]; [| | |done];
      symmetry; apply I2; auto.
  - destruct I1 as [_ I1]. destruct I2 as [I2 _].
    destruct (I2 eq_refl) as [E|[E|[E|[E _]]]]; [| | |done];
      apply I1; auto.
Qed.

Lemma domains_match_symmetric_example :
  GenerateImport.domains_match s!"Blog.Example.com" s!"www.example.com"
  = GenerateImport.domains_match s!"www.example.com" s!"Blog.Example.com".
Proof.
  apply domains_match_symmetric_without_paths;
    intros H%contains_spec; discriminate H.
Defined.

(** ** SQL text *)

Lemma replace_quote_inj (s1 s2 : str) :
  Py.replace "'" s!"''" s1 = Py.replace "'" s!"''" s2 -> s1 = s2.
Proof.
  revert s2. induction s1 as [|c1 s1 IH]; intros [|c2 s2]; simpl; try done.
  - case_bool_decide; discriminate.
  - case_bool_decide; discriminate.
  - repeat case_bool_decide; subst; simpl; intros E.
    + injection E as E. f_equal. by apply IH.
    + injection E as E1 E2. congruence.
    + injection E as E1 E2. congruence.
    + injection E as -> E. f_equal. by apply IH.
Qed.

(** X4: [escape_sql] is injective: two values with the same SQL text are the
    same value, and no string is written as NULL. *)
Theorem escape_sql_injective (a b : option str) :
  GenerateImport.escape_sql a = GenerateImport.escape_sql b -> a = b.
Proof.
  destruct a as [a|], b as [b|]; simpl; try done.
  intros E. injection E as E. apply app_inj_tail in E as [E _].
  f_equal. by apply replace_quote_inj.
Qed.

Lemma escape_sql_injective_example :
  Some s!"it's" = Some s!"it's".
Proof.
  apply (escape_sql_injective (Some s!"it's") (Some s!"it's")). reflexivity.
Defined.

Lemma replace_quote_paired (s : str) :
  quotes_paired (Py.replace "'" s!"''" s) = true.
Proof.
  induction s as [|c s IH]; [done|].
  change (Py.replace "'" s!"''" (c :: s))
    with ((if bool_decide (c = "'"%char) then s!"''" else [c])
          ++ Py.replace "'" s!"''" s).
  case_bool_decide as E.
  - exact IH.
  - cbn [app quotes_paired]. by rewrite bool_decide_eq_false_2.
Qed.

Lemma replace_quote_length (s : str) :
  length (Py.replace "'" s!"''" s)
  = length s + length (filter (fun c => c = "'"%char) s).
Proof.
  induction s as [|c s IH]; [done|].
  change (Py.replace "'" s!"''" (c :: s))
    with ((if bool_decide (c = "'"%char) then s!"''" else [c])
          ++ Py.replace "'" s!"''" s).
  rewrite length_app, IH, filter_cons. case_bool_decide as E.
  - rewrite decide_True by done. simpl. lia.
  - rewrite decide_False by done. simpl. lia.
Qed.

Lemma replace_quote_absent (s : str) :
  "'"%char ∉ s -> Py.replace "'" s!"''" s = s.
Proof.
  induction s as [|c s IH]; [done|]. intros [Hc Hs]%not_elem_of_cons.
  change (Py.replace "'" s!"''" (c :: s))
    with ((if bool_decide (c = "'"%char) then s!"''" else [c])
          ++ Py.replace "'" s!"''" s).
  rewrite bool_decide_eq_false_2 by congruence. cbn [app]. by rewrite IH.
Qed.

(** X5: the text that [escape_sql] and the UPDATE statement put between
    quotes has every single quote doubled: its quotes come in adjacent pairs,
    it is longer than the original by the number of quotes, and a text
    without quotes is left as it is. *)
Theorem escaped_text_quotes_paired (s : str) :
  let body := Py.replace "'" s!"''" s in
  GenerateImport.escape_sql (Some s) = s!"'" ++ body ++ s!"'"
  /\ (forall rank, UpdateRanks.update_stmt rank s
        = s!"UPDATE feeds SET rank = " ++ Py.str_of_int rank
          ++ s!" WHERE url = '" ++ body ++ s!"';")
  /\ quotes_paired body = true
  /\ length body = length s + length (filter (fun c => c = "'"%char) s)
  /\ (("'"%char ∉ s) -> body = s).
Proof.
  intros body. split; [done|]. split; [done|].
  split; [apply replace_quote_paired|].
  split; [apply replace_quote_length|apply replace_quote_absent].
Qed.

(** ** More on the ranking loaders *)

Section LoaderOutcome.
Context {V : Type}.
Variable n : nat.
Variable entry : list str -> result V.
Variable step : dict V -> list str -> result (dict V).
Hypothesis step_eq : forall acc row,
  step acc row =
    if n <=? length row
    then v ← entry row; Ok (Py.setitem acc (row_domain row) v)
    else Ok acc.
Hypothesis entry_error : forall row,
  (exists v, entry row = Ok v) \/ entry row = Raise ValueError.

Lemma loader_Ok_iff acc rows :
  (exists rk, for_each step acc rows = Ok rk)
  <-> forall row, row ∈ rows -> n <= length row -> exists v, entry row = Ok v.
Proof.
  revert acc. induction rows as [|r rows IH]; intros acc.
  - split; [intros _ row Hin; inversion Hin|]. simpl. eauto.
  - simpl. rewrite step_eq. split.
    + intros [rk (acc' & Hs & Hrest)%bind_Ok] row [->|Hin]%elem_of_cons Hn.
      * rewrite (proj2 (Nat.leb_le _ _)) in Hs by done.
        apply bind_Ok in Hs as (v & Hv & _). eauto.
      * eapply IH; eauto.
    + intros Hall. destruct (n <=? length r) eqn:Hn.
      * apply Nat.leb_le in Hn.
        destruct (Hall r) as [v ->]; [left|done|]. simpl.
        apply IH. intros row Hin. apply Hall. by right.
      * simpl. apply IH. intros row Hin. apply Hall. by right.
Qed.

Lemma loader_Ok_or_ValueError acc rows :
  (exists rk, for_each step acc rows = Ok rk)
  \/ for_each step acc rows = Raise ValueError.
Proof.
  revert acc. induction rows as [|r rows IH]; intros acc; simpl; [eauto|].
  destruct (loader_step_cases n entry step step_eq entry_error acc r)
    as [[acc' ->]| ->]; simpl; auto.
Qed.

Lemma loader_NoDup acc rows rk :
  for_each step acc rows = Ok rk -> NoDup acc.*1 -> NoDup rk.*1.
Proof.
  revert acc. induction rows as [|r rows IH]; intros acc; simpl.
  - by intros [= ->].
  - intros (acc' & Hs & Hrest)%bind_Ok Hnd. apply (IH _ Hrest).
    rewrite step_eq in Hs. destruct (n <=? length r).
    + apply bind_Ok in Hs as (v & _ & [= <-]). by apply setitem_NoDup.
    + by injection Hs as <-.
Qed.

Lemma loader_keys acc rows rk :
  for_each step acc rows = Ok rk ->
  forall k,
    k ∈ rk.*1
    <-> k ∈ acc.*1 \/ k ∈ row_domain <$> filter (fun row => n <= length row) rows.
Proof.
  revert acc. induction rows as [|r rows IH]; intros acc; simpl.
  - intros [= ->] k. split; [by left|]. intros [?|H]; [done|inversion H].
  - intros (acc' & Hs & Hrest)%bind_Ok k. rewrite (IH _ Hrest), filter_cons.
    rewrite step_eq in Hs. destruct (n <=? length r) eqn:Hn.
    + apply Nat.leb_le in Hn. rewrite decide_True by done.
      apply bind_Ok in Hs as (v & _ & [= <-]).
      rewrite setitem_keys, fmap_cons, elem_of_cons.
      case_bool_decide as Hin; [|rewrite elem_of_app, list_elem_of_singleton];
        split; intros; [| |tauto|]; intuition (subst; auto).
    + apply Nat.leb_gt in Hn. rewrite decide_False by lia.
      by injection Hs as <-.
Qed.

(** As many items are loaded as the parsed rows have distinct domains. *)
Lemma loader_count rows rk :
  for_each step [] rows = Ok rk ->
  rk.*1 ≡ₚ remove_dups (row_domain <$> filter (fun row => n <= length row) rows)
  /\ length rk
     = length (remove_dups
                 (row_domain <$> filter (fun row => n <= length row) rows)).
Proof.
  intros H.
  assert (P : rk.*1 ≡ₚ remove_dups
                (row_domain <$> filter (fun row => n <= length row) rows)).
  { apply NoDup_Permutation.
    - apply (loader_NoDup _ _ _ H). constructor.
    - apply NoDup_remove_dups.
    - intros k. rewrite (loader_keys _ _ _ H), elem_of_remove_dups.
      split; [intros [Hin|?]; [inversion Hin|done]|by right]. }
  split; [done|]. apply Permutation_length in P. by rewrite length_fmap in P.
Qed.

End LoaderOutcome.

(** X6: an empty ranking table makes either loader raise StopIteration;
    a table with a header loads exactly when [int] accepts the rank field of
    every parsed row, and otherwise the loader raises ValueError: the guard
    on the number of columns rules out every IndexError. *)
Theorem load_rankings_outcome (header : list str) (rows : list (list str)) :
  GenerateImport.load_rankings [] = Raise StopIteration
  /\ UpdateRanks.load_rankings [] = Raise StopIteration
  /\ ((exists rk, GenerateImport.load_rankings (header :: rows) = Ok rk)
      <-> forall row, row ∈ rows -> 6 <= length row ->
            exists z, row_rank row = Ok z)
  /\ ((exists rk, GenerateImport.load_rankings (header :: rows) = Ok rk)
      \/ GenerateImport.load_rankings (header :: rows) = Raise ValueError)
  /\ ((exists ranks, UpdateRanks.load_rankings (header :: rows) = Ok ranks)
      <-> forall row, row ∈ rows -> 2 <= length row ->
            exists z, row_rank row = Ok z)
  /\ ((exists ranks, UpdateRanks.load_rankings (header :: rows) = Ok ranks)
      \/ UpdateRanks.load_rankings (header :: rows) = Raise ValueError).
Proof.
  split; [done|]. split; [done|]. split; [|split; [|split]].
  - simpl. rewrite (loader_Ok_iff 6 info_of_row _ generate_import_load_row).
    split; intros H row Hin Hn; destruct (H row Hin Hn) as [v Hv].
    + exists (GenerateImport.rank v). by apply info_of_row_Ok in Hv as [? _].
    + unfold info_of_row. rewrite Hv. simpl. eauto.
  - apply (loader_Ok_or_ValueError 6 info_of_row);
      auto using generate_import_load_row, info_of_row_cases.
  - simpl. apply (loader_Ok_iff 2 row_rank), update_ranks_load_row.
  - apply (loader_Ok_or_ValueError 2 row_rank); auto using update_ranks_load_row.
    intros r. apply int_cases.
Qed.

(** X7: the number of loaded rankings, which generate-import.py prints in
    its first line, is the number of distinct domains among the parsed rows,
    not the number of rows. *)
Theorem loaded_rankings_count (header : list str) (rows : list (list str)) :
  (forall rk,
     GenerateImport.load_rankings (header :: rows) = Ok rk ->
     rk.*1 ≡ₚ remove_dups
                (row_domain <$> filter (fun row => 6 <= length row) rows)
     /\ Py.len rk
        = Z.of_nat (length (remove_dups
             (row_domain <$> filter (fun row => 6 <= length row) rows))))
  /\ (forall ranks,
        UpdateRanks.load_rankings (header :: rows) = Ok ranks ->
        ranks.*1 ≡ₚ remove_dups
                      (row_domain <$> filter (fun row => 2 <= length row) rows)
        /\ length ranks
           = length (remove_dups
               (row_domain <$> filter (fun row => 2 <= length row) rows))).
Proof.
  split.
  - intros rk H.
    destruct (loader_count 6 info_of_row _ generate_import_load_row rows rk H)
      as [P L].
    split; [done|]. unfold Py.len. by rewrite L.
  - intros ranks H.
    apply (loader_count 2 row_rank _ update_ranks_load_row rows ranks H).
Qed.

Lemma loaded_rankings_count_example :
  Py.len [(s!"example.com",
            {| GenerateImport.rank := 3; GenerateImport.author := s!"C" |});
          (s!"other.org",
            {| GenerateImport.rank := 2; GenerateImport.author := s!"B" |})]
  = 2%Z.
Proof.
  destruct (loaded_rankings_count
              [s!"rank"; s!"domain"; s!"c"; s!"d"; s!"e"; s!"author"]
              [[s!"1"; s!"Example.com "; s!""; s!""; s!""; s!"A"];
               [s!"2"; s!"other.org"; s!""; s!""; s!""; s!"B"];
               [s!"short"; s!"row"];
               [s!"3"; s!"example.com"; s!""; s!""; s!""; s!"C"]]) as [H _].
  destruct (H _ eq_refl) as [_ L]. exact L.
Defined.

Lemma ranks_of_setitem (acc : dict GenerateImport.info) (k : str)
    (v : GenerateImport.info) :
  ranks_of (Py.setitem acc k v)
  = Py.setitem (ranks_of acc) k (GenerateImport.rank v).
Proof.
  unfold ranks_of. induction acc as [|[k' v'] acc IH]; [done|].
  cbn [Py.setitem]. rewrite !fmap_cons. cbn [fst snd Py.setitem].
  case_bool_decide; [done|]. by rewrite fmap_cons, IH.
Qed.

Lemma loaders_agree_acc (acc : dict GenerateImport.info) (rows : list (list str)) :
  for_each UpdateRanks.load_row (ranks_of acc)
    (filter (fun row => 6 <= length row) rows)
  = ranks_of <$> for_each GenerateImport.load_row acc rows.
Proof.
  revert acc. induction rows as [|r rows IH]; intros acc; [done|].
  rewrite filter_cons. cbn [for_each].
  rewrite generate_import_load_row. case_decide as Hn.
  - cbn [for_each]. rewrite update_ranks_load_row.
    rewrite (proj2 (Nat.leb_le 6 _)) by done.
    rewrite (proj2 (Nat.leb_le 2 _)) by lia.
    unfold info_of_row. destruct (row_rank r) as [z|e]; [|done].
    cbn [mbind result_bind]. rewrite <- IH, ranks_of_setitem. done.
  - rewrite (proj2 (Nat.leb_gt 6 _)) by lia. cbn [mbind result_bind].
    apply IH.
Qed.

(** X8: on the rows of at least 6 columns the two scripts load the same
    rankings: the same domains in the same order with the same ranks, and the
    same error if there is one. *)
Theorem loaders_agree_on_long_rows (header : list str) (rows : list (list str)) :
  UpdateRanks.load_rankings
    (header :: filter (fun row => 6 <= length row) rows)
  = ranks_of <$> GenerateImport.load_rankings (header :: rows).
Proof. apply (loaders_agree_acc []). Qed.

(** X9: on the same rankings the lookup of update-ranks.py prints an UPDATE
    statement exactly when the lookup of generate-import.py finds a rank, and
    it prints that rank. *)
Theorem lookups_agree (domain url : str) (matched : Z)
    (rankings : dict GenerateImport.info) (out : list str) :
  UpdateRanks.scan domain url matched (ranks_of rankings) out
  = match GenerateImport.find_rank domain rankings with
    | Ok (Some rank) =>
        (out ++ [UpdateRanks.update_stmt rank url], Ok (matched + 1)%Z)
    | Ok None => (out, Ok matched)
    | Raise e => (out, Raise e)
    end.
Proof.
  induction rankings as [|[d inf] rankings IH]; [done|].
  unfold ranks_of. rewrite fmap_cons. fold (ranks_of rankings).
  cbn [fst snd UpdateRanks.scan GenerateImport.find_rank].
  unfold mbind at 1, io_bind, lift. rewrite <- domains_match_agree.
  destruct (domains_match_total domain d) as [E|E]; rewrite E;
    cbn [mbind result_bind]; [done|exact IH].
Qed.

(** ** The output of generate-import.py *)

Lemma emit_feed_ranked (rankings : dict GenerateImport.info)
    (matched unmatched : Z) (f : GenerateImport.feed) (out : list str) :
  GenerateImport.emit_feed rankings (matched, unmatched) f out
  = (out ++ [GenerateImport.insert_stmt f (rank_val rankings f)],
     Ok (if ranked rankings f then ((matched + 1)%Z, unmatched)
         else (matched, (unmatched + 1)%Z))).
Proof.
  destruct (emit_feed_run rankings matched unmatched f out) as (rank & Hr & ->).
  unfold rank_val, ranked. rewrite Hr.
  destruct rank as [z|]; [|done]. simpl. by destruct (z =? 0)%Z.
Qed.

Lemma insert_loop_exact (rankings : dict GenerateImport.info)
    (feeds : list GenerateImport.feed) (matched unmatched : Z) (out : list str) :
  for_each_io (GenerateImport.emit_feed rankings) (matched, unmatched) feeds out
  = (out ++ ((fun f => GenerateImport.insert_stmt f (rank_val rankings f))
               <$> feeds),
     Ok ((matched + Py.len (filter (fun f => ranked rankings f = true) feeds))%Z,
         (unmatched
          + Py.len (filter (fun f => ranked rankings f = false) feeds))%Z)).
Proof.
  revert matched unmatched out.
  induction feeds as [|f feeds IH]; intros m u out.
  - unfold Py.len. simpl. rewrite app_nil_r, !Z.add_0_r. done.
  - cbn [for_each_io]. unfold mbind at 1, io_bind.
    rewrite emit_feed_ranked, fmap_cons, !filter_cons.
    destruct (ranked rankings f) eqn:E.
    + rewrite decide_True, decide_False by done. rewrite IH, <- app_assoc.
      unfold Py.len. rewrite length_cons. simpl. do 3 f_equal. lia.
    + rewrite decide_False, decide_True by done. rewrite IH, <- app_assoc.
      unfold Py.len. rewrite length_cons. simpl. do 3 f_equal. lia.
Qed.

(** X10: once both tables load, the output of generate-import.py is the
    heading, one INSERT statement per loaded feed in the order of the feeds,
    each with the feed's rank text, and the summary; [matched] is the number
    of feeds whose lookup gives a rank other than 0 and [unmatched] the
    number of the other feeds. *)
Theorem main_output (netloc : str -> result str) (top100 : list (list str))
    (feeds_csv : list (dict (option str)))
    (rankings : dict GenerateImport.info) (feeds : list GenerateImport.feed) :
  GenerateImport.load_rankings top100 = Ok rankings ->
  GenerateImport.load_feeds netloc feeds_csv = Ok feeds ->
  let matched := Py.len (filter (fun f => ranked rankings f = true) feeds) in
  let unmatched := Py.len (filter (fun f => ranked rankings f = false) feeds) in
  run (GenerateImport.main netloc top100 feeds_csv)
  = ([s!"-- Loaded " ++ Py.str_of_int (Py.len rankings)
      ++ s!" rankings and " ++ Py.str_of_int (Py.len feeds) ++ s!" feeds";
      s!""; s!"-- Feed inserts"; s!""]
     ++ ((fun f => GenerateImport.insert_stmt f (rank_val rankings f)) <$> feeds)
     ++ [s!""; GenerateImport.summary (matched, unmatched)],
     Ok (matched, unmatched)).
Proof.
  intros Hr Hf matched unmatched. unfold run, GenerateImport.main.
  unfold mbind at 1, io_bind at 1, lift at 1. rewrite Hr.
  unfold mbind at 1, io_bind at 1, lift at 1. rewrite Hf.
  rewrite !print_bind.
  erewrite io_bind_Ok by apply insert_loop_exact.
  rewrite !print_bind, !Z.add_0_l. unfold mret, io_ret.
  fold matched unmatched. f_equal. by rewrite <- !app_assoc.
Qed.

Lemma main_output_example :
  run (GenerateImport.main netloc_of
         [[s!"rank"; s!"domain"; s!"c"; s!"d"; s!"e"; s!"author"];
          [s!"7"; s!"example.com"; s!""; s!""; s!""; s!"Author"]]
         [[(s!"name", Some s!"Ex");
           (s!"url", Some s!"https://www.example.com/feed")];
          [(s!"name", Some s!"Foo"); (s!"url", Some s!"https://foo.org/rss")]])
  = ([s!"-- Loaded 1 rankings and 2 feeds"; s!""; s!"-- Feed inserts"; s!"";
      s!"INSERT OR IGNORE INTO feeds (name, url, domain, rank) VALUES ('Ex', 'https://www.example.com/feed', 'example.com', 7);";
      s!"INSERT OR IGNORE INTO feeds (name, url, domain, rank) VALUES ('Foo', 'https://foo.org/rss', 'foo.org', NULL);";
      s!""; s!"-- Summary: 1 ranked feeds, 1 unranked feeds"],
     Ok (1%Z, 1%Z)).
Proof.
  exact (main_output netloc_of
           [[s!"rank"; s!"domain"; s!"c"; s!"d"; s!"e"; s!"author"];
            [s!"7"; s!"example.com"; s!""; s!""; s!""; s!"Author"]]
           [[(s!"name", Some s!"Ex");
             (s!"url", Some s!"https://www.example.com/feed")];
            [(s!"name", Some s!"Foo"); (s!"url", Some s!"https://foo.org/rss")]]
           [(s!"example.com",
              {| GenerateImport.rank := 7; GenerateImport.author := s!"Author" |})]
           [{| GenerateImport.name := s!"Ex";
               GenerateImport.url := s!"https://www.example.com/feed";
               GenerateImport.domain := s!"example.com" |};
            {| GenerateImport.name := s!"Foo";
               GenerateImport.url := s!"https://foo.org/rss";
               GenerateImport.domain := s!"foo.org" |}]
           eq_refl eq_refl).
Defined.

(** X11: generate-import.py prints all or nothing: a run that raises has
    printed nothing, and the exception comes from loading one of the two
    tables; the loop over the feeds never raises. *)
Theorem main_all_or_nothing (netloc : str -> result str)
    (top100 : list (list str)) (feeds_csv : list (dict (option str)))
    (out : list str) (e : exn) :
  run (GenerateImport.main netloc top100 feeds_csv) = (out, Raise e) ->
  out = []
  /\ (GenerateImport.load_rankings top100 = Raise e
      \/ ((exists rankings, GenerateImport.load_rankings top100 = Ok rankings)
          /\ GenerateImport.load_feeds netloc feeds_csv = Raise e)).
Proof.
  intros Hrun.
  destruct (GenerateImport.load_rankings top100) as [rankings|e'] eqn:Hr.
  - destruct (GenerateImport.load_feeds netloc feeds_csv) as [feeds|e'] eqn:Hf.
    + destruct (main_run netloc top100 feeds_csv rankings feeds Hr Hf)
        as (inserts & counts & Hmain & _).
      rewrite Hmain in Hrun. discriminate.
    + rewrite (main_raises netloc top100 feeds_csv e') in Hrun by eauto.
      injection Hrun as <- <-. eauto.
  - rewrite (main_raises netloc top100 feeds_csv e') in Hrun by auto.
    injection Hrun as <- <-. auto.
Qed.

Lemma main_all_or_nothing_example :
  GenerateImport.load_rankings
    [[s!"rank"; s!"domain"; s!"c"; s!"d"; s!"e"; s!"author"];
     [s!"1"; s!"example.com"; s!""; s!""; s!""; s!"A"]]
  = Raise KeyError
  \/ ((exists rankings,
         GenerateImport.load_rankings
           [[s!"rank"; s!"domain"; s!"c"; s!"d"; s!"e"; s!"author"];
            [s!"1"; s!"example.com"; s!""; s!""; s!""; s!"A"]]
         = Ok rankings)
      /\ GenerateImport.load_feeds netloc_of
           [[(s!"title", Some s!"Ex");
             (s!"url", Some s!"https://example.com/feed")];
            [(s!"title", Some s!"No name"); (s!"url", Some s!"")]]
         = Raise KeyError).
Proof.
  apply (main_all_or_nothing netloc_of
           [[s!"rank"; s!"domain"; s!"c"; s!"d"; s!"e"; s!"author"];
            [s!"1"; s!"example.com"; s!""; s!""; s!""; s!"A"]]
           [[(s!"title", Some s!"Ex");
             (s!"url", Some s!"https://example.com/feed")];
            [(s!"title", Some s!"No name"); (s!"url", Some s!"")]]
           [] KeyError).
  reflexivity.
Defined.

(** ** The output of update-ranks.py *)

Lemma getitem_cases {V} (d : dict V) (k : str) :
  (exists v, Py.getitem d k = Ok v) \/ Py.getitem d k = Raise KeyError.
Proof.
  induction d as [|[k' v] d IH]; simpl; [by right|].
  case_bool_decide; eauto.
Qed.

Lemma scan_list_find (domain url : str) (matched : Z) (items : dict Z)
    (out : list str) :
  UpdateRanks.scan domain url matched items out
  = match list_find
            (fun item => UpdateRanks.domains_match domain item.1 = Ok true)
            items with
    | Some (_, (_, rank)) =>
        (out ++ [UpdateRanks.update_stmt rank url], Ok (matched + 1)%Z)
    | None => (out, Ok matched)
    end.
Proof.
  induction items as [|[d rank] items IH]; [done|].
  cbn [UpdateRanks.scan list_find]. unfold mbind at 1, io_bind, lift.
  destruct (domains_match_total domain d) as [E|E];
    rewrite domains_match_agree in E; rewrite E; cbn [fst].
  - rewrite decide_True by done. reflexivity.
  - rewrite decide_False by (rewrite E; discriminate). rewrite IH.
    by destruct (list_find _ items) as [[i [d' rank']]|].
Qed.

Lemma lift_bind_Ok {A B} (a : A) (k : A -> io B) (out : list str) :
  (lift (Ok a) ≫= k) out = k a out.
Proof. reflexivity. Qed.

(** A feed row either raises, whatever was counted and printed before it,
    or prints its statements and counts them. *)
Lemma update_feed_row (netloc : str -> result str) (rankings : dict Z)
    (row : dict (option str)) :
  (exists e, forall matched out,
     UpdateRanks.update_feed netloc rankings matched row out = (out, Raise e))
  \/ (forall matched out,
        UpdateRanks.update_feed netloc rankings matched row out
        = (out ++ row_updates netloc rankings row,
           Ok (matched + Py.len (row_updates netloc rankings row))%Z)).
Proof.
  unfold row_updates, trimmed_url.
  destruct (Py.getitem row s!"url") as [field|e] eqn:Hg.
  2: { left. exists e. intros m out. unfold UpdateRanks.update_feed.
       rewrite Hg. reflexivity. }
  destruct field as [u|].
  2: { left. exists AttributeError. intros m out.
       unfold UpdateRanks.update_feed. rewrite Hg. reflexivity. }
  case_bool_decide as Hne.
  2: { right. intros m out. unfold UpdateRanks.update_feed.
       rewrite Hg, !lift_bind_Ok. cbn [Py.attr_strip]. rewrite lift_bind_Ok. cbn beta.
       rewrite bool_decide_eq_false_2 by (intros H; exact (H Hne)).
       unfold mret, io_ret, Py.len. simpl. by rewrite app_nil_r, Z.add_0_r. }
  destruct (UpdateRanks.extract_domain netloc (Py.strip u)) as [d|e] eqn:Hd.
  2: { left. exists e. intros m out. unfold UpdateRanks.update_feed.
       rewrite Hg, !lift_bind_Ok. cbn [Py.attr_strip]. rewrite lift_bind_Ok. cbn beta.
       rewrite bool_decide_eq_true_2 by done. rewrite Hd. reflexivity. }
  right. intros m out. unfold UpdateRanks.update_feed.
  rewrite Hg, !lift_bind_Ok. cbn [Py.attr_strip]. rewrite lift_bind_Ok. cbn beta.
  rewrite bool_decide_eq_true_2 by done. rewrite Hd, lift_bind_Ok. cbn beta.
  rewrite scan_list_find.
  destruct (list_find _ rankings) as [[i [d' rank]]|]; unfold Py.len; simpl.
  - done.
  - by rewrite app_nil_r, Z.add_0_r.
Qed.

Lemma update_loop_exact (netloc : str -> result str) (rankings : dict Z)
    (rows : list (dict (option str))) (matched : Z) (out : list str) :
  for_each_io (UpdateRanks.update_feed netloc rankings) matched rows out
  = (out ++ flat_map (row_updates netloc rankings) rows,
     Ok (matched + Py.len (flat_map (row_updates netloc rankings) rows))%Z)
  \/ exists pre row post e,
       rows = pre ++ row :: post
       /\ (forall r, r ∈ pre -> forall m o,
             UpdateRanks.update_feed netloc rankings m r o
             = (o ++ row_updates netloc rankings r,
                Ok (m + Py.len (row_updates netloc rankings r))%Z))
       /\ (forall m o,
             UpdateRanks.update_feed netloc rankings m row o = (o, Raise e))
       /\ for_each_io (UpdateRanks.update_feed netloc rankings) matched rows out
          = (out ++ flat_map (row_updates netloc rankings) pre, Raise e).
Proof.
  revert matched out. induction rows as [|row rows IH]; intros matched out.
  - left. unfold Py.len. simpl. by rewrite app_nil_r, Z.add_0_r.
  - assert (Hstep :
      for_each_io (UpdateRanks.update_feed netloc rankings) matched
        (row :: rows) out
      = match UpdateRanks.update_feed netloc rankings matched row out with
        | (out', Ok m) =>
            for_each_io (UpdateRanks.update_feed netloc rankings) m rows out'
        | (out', Raise e) => (out', Raise e)
        end) by reflexivity.
    rewrite Hstep. clear Hstep.
    destruct (update_feed_row netloc rankings row) as [[e He]|Hrow].
    + right. exists [], row, rows, e. rewrite He. simpl. rewrite app_nil_r.
      split; [done|]. split; [|done]. intros r Hr. inversion Hr.
    + rewrite Hrow.
      destruct (IH (matched + Py.len (row_updates netloc rankings row))%Z
                  (out ++ row_updates netloc rankings row))
        as [Hall|(pre & r & post & e & -> & Hpre & Hr & Hloop)].
      * left. rewrite Hall. cbn [flat_map]. rewrite <- app_assoc.
        unfold Py.len. rewrite length_app. do 2 f_equal. lia.
      * right. exists (row :: pre), r, post, e. rewrite Hloop.
        cbn [flat_map]. rewrite <- app_assoc. split; [done|].
        split; [|done]. intros r' [->|Hin]%elem_of_cons; auto.
Qed.

(** X12: update-ranks.py prints nothing when the rankings do not load.
    Otherwise it prints, for the feed rows in order, the UPDATE statement of
    the first ranking that matches the domain of the row's non-empty trimmed
    url, when there is one.  A run that finishes then prints the summary
    line, and [matched] is the number of the statements.  A run that raises
    does so at a feed row, and has printed exactly the statements of the rows
    before that row. *)
Theorem script_output (netloc : str -> result str) (top100 : list (list str))
    (feeds_csv : list (dict (option str))) :
  match UpdateRanks.load_rankings top100 with
  | Raise e =>
      run (UpdateRanks.script netloc top100 feeds_csv) = ([], Raise e)
  | Ok rankings =>
      (let ups := flat_map (row_updates netloc rankings) feeds_csv in
       run (UpdateRanks.script netloc top100 feeds_csv)
       = (ups ++ [s!"-- Matched " ++ Py.str_of_int (Py.len ups)
                  ++ s!" feeds to rankings"],
          Ok (Py.len ups)))
      \/ exists pre row post e,
           feeds_csv = pre ++ row :: post
           /\ (forall r, r ∈ pre -> forall m o,
                 UpdateRanks.update_feed netloc rankings m r o
                 = (o ++ row_updates netloc rankings r,
                    Ok (m + Py.len (row_updates netloc rankings r))%Z))
           /\ (forall m o,
                 UpdateRanks.update_feed netloc rankings m row o
                 = (o, Raise e))
           /\ run (UpdateRanks.script netloc top100 feeds_csv)
              = (flat_map (row_updates netloc rankings) pre, Raise e)
  end.
Proof.
  destruct (UpdateRanks.load_rankings top100) as [rankings|e] eqn:Hl.
  2: { unfold run, UpdateRanks.script.
       unfold mbind at 1, io_bind at 1, lift at 1. by rewrite Hl. }
  assert (Hrun :
    run (UpdateRanks.script netloc top100 feeds_csv)
    = match for_each_io (UpdateRanks.update_feed netloc rankings) 0%Z
              feeds_csv [] with
      | (out, Ok m) =>
          (out ++ [s!"-- Matched " ++ Py.str_of_int m
                   ++ s!" feeds to rankings"], Ok m)
      | (out, Raise e) => (out, Raise e)
      end).
  { unfold run, UpdateRanks.script.
    unfold mbind at 1, io_bind at 1, lift at 1. rewrite Hl.
    unfold mbind at 1, io_bind at 1.
    by destruct (for_each_io _ _ _ _) as [o [m|e]]. }
  rewrite Hrun. clear Hrun.
  destruct (update_loop_exact netloc rankings feeds_csv 0 [])
    as [Hall|(pre & row & post & e & -> & Hpre & Hrow & Hloop)].
  - left. rewrite Hall. by rewrite Z.add_0_l, app_nil_l.
  - right. exists pre, row, post, e. rewrite Hloop. done.
Qed.

(** ** The feed loader *)

(** X13: when [urlparse] gives a netloc without surrounding whitespace,
    [extract_domain] of either script returns what [normalize_domain] makes
    of that netloc; an exception of [urlparse] is passed on. *)
Theorem extract_domain_normalizes (netloc : str -> result str) (url nl : str) :
  netloc url = Ok nl ->
  Py.strip (Py.lower nl) = Py.lower nl ->
  GenerateImport.extract_domain netloc url
  = Ok (GenerateImport.normalize_domain nl)
  /\ UpdateRanks.extract_domain netloc url
     = Ok (UpdateRanks.normalize_domain nl).
Proof.
  intros Hn Hs.
  unfold GenerateImport.extract_domain, UpdateRanks.extract_domain,
    GenerateImport.normalize_domain, UpdateRanks.normalize_domain.
  rewrite Hn, Hs. cbn [mbind result_bind].
  by destruct (Py.startswith (Py.lower nl) s!"www.").
Qed.

Lemma extract_domain_normalizes_example :
  GenerateImport.extract_domain netloc_of s!"https://WWW.Example.com/feed"
  = Ok s!"example.com"
  /\ UpdateRanks.extract_domain netloc_of s!"https://WWW.Example.com/feed"
     = Ok s!"example.com".
Proof.
  exact (extract_domain_normalizes netloc_of s!"https://WWW.Example.com/feed"
           s!"WWW.Example.com" eq_refl eq_refl).
Defined.

Lemma extract_domain_lower (netloc : str -> result str) (url d : str) :
  GenerateImport.extract_domain netloc url = Ok d -> Py.lower d = d.
Proof.
  unfold GenerateImport.extract_domain.
  intros (nl & _ & H)%bind_Ok.
  destruct (Py.startswith _ _); injection H as <-.
  - by rewrite lower_drop, lower_idem.
  - apply lower_idem.
Qed.

Lemma load_feed_fields (netloc : str -> result str)
    (acc acc1 : list GenerateImport.feed) (row : dict (option str)) :
  GenerateImport.load_feed netloc acc row = Ok acc1 ->
  acc1 = acc
  \/ exists f,
       acc1 = acc ++ [f]
       /\ GenerateImport.url f <> []
       /\ Py.strip (GenerateImport.url f) = GenerateImport.url f
       /\ Py.strip (GenerateImport.name f) = GenerateImport.name f
       /\ GenerateImport.extract_domain netloc (GenerateImport.url f)
          = Ok (GenerateImport.domain f).
Proof.
  unfold GenerateImport.load_feed.
  intros (fname & _ & H)%bind_Ok.
  apply bind_Ok in H as (name & Hname & H).
  apply bind_Ok in H as (furl & _ & H).
  apply bind_Ok in H as (url & Hurl & H).
  destruct fname as [n0|]; [|discriminate]. injection Hname as <-.
  destruct furl as [u|]; [|discriminate]. injection Hurl as <-.
  case_bool_decide as Hne.
  - apply bind_Ok in H as (d & Hd & [= <-]). right.
    exists {| GenerateImport.name := Py.strip n0;
              GenerateImport.url := Py.strip u;
              GenerateImport.domain := d |}.
    cbn [GenerateImport.name GenerateImport.url GenerateImport.domain].
    auto using strip_idem.
  - injection H as <-. by left.
Qed.

(** X14: every loaded feed has a trimmed name, a trimmed url that is not
    empty, and as domain the lower-case text that [extract_domain] returns
    for that url. *)
Theorem loaded_feeds_invariant (netloc : str -> result str)
    (feeds_csv : list (dict (option str))) (feeds : list GenerateImport.feed) :
  GenerateImport.load_feeds netloc feeds_csv = Ok feeds ->
  Forall (fun f =>
            GenerateImport.url f <> []
            /\ Py.strip (GenerateImport.url f) = GenerateImport.url f
            /\ Py.strip (GenerateImport.name f) = GenerateImport.name f
            /\ GenerateImport.extract_domain netloc (GenerateImport.url f)
               = Ok (GenerateImport.domain f)
            /\ Py.lower (GenerateImport.domain f) = GenerateImport.domain f)
    feeds.
Proof.
  unfold GenerateImport.load_feeds.
  assert (G : forall acc,
    Forall (fun f =>
              GenerateImport.url f <> []
              /\ Py.strip (GenerateImport.url f) = GenerateImport.url f
              /\ Py.strip (GenerateImport.name f) = GenerateImport.name f
              /\ GenerateImport.extract_domain netloc (GenerateImport.url f)
                 = Ok (GenerateImport.domain f)
              /\ Py.lower (GenerateImport.domain f) = GenerateImport.domain f)
      acc ->
    for_each (GenerateImport.load_feed netloc) acc feeds_csv = Ok feeds ->
    Forall (fun f =>
              GenerateImport.url f <> []
              /\ Py.strip (GenerateImport.url f) = GenerateImport.url f
              /\ Py.strip (GenerateImport.name f) = GenerateImport.name f
              /\ GenerateImport.extract_domain netloc (GenerateImport.url f)
                 = Ok (GenerateImport.domain f)
              /\ Py.lower (GenerateImport.domain f) = GenerateImport.domain f)
      feeds).
  { induction feeds_csv as [|row rows IH]; intros acc Hacc; simpl.
    - by intros [= <-].
    - intros (acc1 & Hrow & Hrest)%bind_Ok. apply (IH acc1); [|done].
      apply load_feed_fields in Hrow as [->|(f & -> & ? & ? & ? & Hd)]; [done|].
      apply Forall_app. split; [done|]. repeat constructor; try done.
      by apply extract_domain_lower in Hd. }
  apply G. constructor.
Qed.

Lemma loaded_feeds_invariant_example :
  Forall (fun f =>
            GenerateImport.url f <> []
            /\ Py.strip (GenerateImport.url f) = GenerateImport.url f
            /\ Py.strip (GenerateImport.name f) = GenerateImport.name f
            /\ GenerateImport.extract_domain netloc_of (GenerateImport.url f)
               = Ok (GenerateImport.domain f)
            /\ Py.lower (GenerateImport.domain f) = GenerateImport.domain f)
    [{| GenerateImport.name := s!"Ex";
        GenerateImport.url := s!"https://WWW.Example.com/feed";
        GenerateImport.domain := s!"example.com" |}].
Proof.
  apply (loaded_feeds_invariant netloc_of
           [[(s!"name", Some s!" Ex "); (s!"url", Some s!" https://WWW.Example.com/feed ")];
            [(s!"name", Some s!"Empty"); (s!"url", Some s!"   ")]]).
  reflexivity.
Defined.

Lemma for_each_Raise {A S} (body : S -> A -> result S) (s : S) (l : list A)
    (e : exn) :
  for_each body s l = Raise e ->
  exists pre x post s',
    l = pre ++ x :: post /\ for_each body s pre = Ok s' /\ body s' x = Raise e.
Proof.
  revert s. induction l as [|x l IH]; intros s; simpl; [done|].
  destruct (body s x) as [s1|e1] eqn:Hx; simpl.
  - intros (pre & y & post & s' & -> & Hpre & Hy)%IH.
    exists (x :: pre), y, post, s'. simpl. rewrite Hx. done.
  - intros [= <-]. exists [], x, l, s. done.
Qed.

(** The checks of one turn of [load_feeds], in the order in which they are
    made. *)
Lemma load_feed_Raise (netloc : str -> result str)
    (acc : list GenerateImport.feed) (row : dict (option str)) (e : exn) :
  GenerateImport.load_feed netloc acc row = Raise e
  <-> (Py.getitem row s!"name" = Raise KeyError /\ e = KeyError)
      \/ (Py.getitem row s!"name" = Ok None /\ e = AttributeError)
      \/ (exists n, Py.getitem row s!"name" = Ok (Some n)
                    /\ Py.getitem row s!"url" = Raise KeyError /\ e = KeyError)
      \/ (exists n, Py.getitem row s!"name" = Ok (Some n)
                    /\ Py.getitem row s!"url" = Ok None
                    /\ e = AttributeError)
      \/ (exists n u, Py.getitem row s!"name" = Ok (Some n)
                      /\ trimmed_url row = Some u /\ netloc u = Raise e).
Proof.
  unfold GenerateImport.load_feed, trimmed_url.
  destruct (getitem_cases row s!"name") as [[fname ->]| ->];
    cbn [mbind result_bind].
  2: { split; [intros [= <-]; auto|].
       intros [[_ ->]|[[? _]|[(? & ? & _)|[(? & ? & _)|(? & ? & ? & _)]]]];
         done. }
  destruct fname as [n0|]; cbn [Py.attr_strip mbind result_bind].
  2: { split; [intros [= <-]; auto|].
       intros [[? _]|[[_ ->]|[(? & ? & _)|[(? & ? & _)|(? & ? & ? & _)]]]];
         done. }
  destruct (getitem_cases row s!"url") as [[furl ->]| ->];
    cbn [mbind result_bind].
  2: { split; [intros [= <-]; do 2 right; left; eauto|].
       intros [[? _]|[[? _]|[(? & _ & _ & ->)|[(? & _ & ? & _)|(? & ? & _ & ? & _)]]]];
         done. }
  destruct furl as [u|]; cbn [Py.attr_strip mbind result_bind].
  2: { split; [intros [= <-]; do 3 right; left; eauto|].
       intros [[? _]|[[? _]|[(? & _ & ? & _)|[(? & _ & _ & ->)|(? & ? & _ & ? & _)]]]];
         done. }
  case_bool_decide as Hne.
  2: { split; [done|].
       intros [[? _]|[[? _]|[(? & _ & ? & _)|[(? & _ & ? & _)|(? & ? & _ & ? & _)]]]];
         done. }
  unfold GenerateImport.extract_domain.
  destruct (netloc (Py.strip u)) as [nl|e'] eqn:Hn; cbn [mbind result_bind].
  - split; [by destruct (Py.startswith _ _)|].
    intros [[? _]|[[? _]|[(? & _ & ? & _)|[(? & _ & ? & _)|(? & u' & _ & [= <-] & Hr)]]]];
      try done. congruence.
  - split.
    + intros [= <-]. do 4 right. eauto.
    + intros [[? _]|[[? _]|[(? & _ & ? & _)|[(? & _ & ? & _)|(? & u' & _ & [= <-] & Hr)]]]];
        try done. congruence.
Qed.

(** X15: [load_feeds] raises exactly when some row is the first to fail: the
    rows before it load, and the row, in this order of checks, has no [name]
    column (KeyError), has no value for it (AttributeError), has no [url]
    column (KeyError), has no value for it (AttributeError), or has a
    non-empty trimmed url on which [urlparse] raises.  So a row without the
    [name] column fails with KeyError whatever its url is, empty or not. *)
Theorem load_feeds_failure (netloc : str -> result str)
    (feeds_csv : list (dict (option str))) (e : exn) :
  GenerateImport.load_feeds netloc feeds_csv = Raise e
  <-> exists pre row post,
        feeds_csv = pre ++ row :: post
        /\ (exists feeds, GenerateImport.load_feeds netloc pre = Ok feeds)
        /\ ((Py.getitem row s!"name" = Raise KeyError /\ e = KeyError)
            \/ (Py.getitem row s!"name" = Ok None /\ e = AttributeError)
            \/ (exists n, Py.getitem row s!"name" = Ok (Some n)
                          /\ Py.getitem row s!"url" = Raise KeyError
                          /\ e = KeyError)
            \/ (exists n, Py.getitem row s!"name" = Ok (Some n)
                          /\ Py.getitem row s!"url" = Ok None
                          /\ e = AttributeError)
            \/ (exists n u, Py.getitem row s!"name" = Ok (Some n)
                            /\ trimmed_url row = Some u
                            /\ netloc u = Raise e)).
Proof.
  unfold GenerateImport.load_feeds. split.
  - intros (pre & row & post & acc & -> & Hpre & Hrow)%for_each_Raise.
    exists pre, row, post. split; [done|]. split; [eauto|].
    by apply load_feed_Raise in Hrow.
  - intros (pre & row & post & -> & [feeds Hpre] & Hrow).
    rewrite for_each_app, Hpre. cbn [mbind result_bind for_each].
    apply (load_feed_Raise netloc feeds) in Hrow. by rewrite Hrow.
Qed.

Lemma load_feeds_failure_example :
  GenerateImport.load_feeds netloc_of
    [[(s!"title", Some s!"A"); (s!"url", Some s!"")];
     [(s!"title", Some s!"B"); (s!"url", Some s!"https://b.org/rss")]]
  = Raise KeyError.
Proof.
  apply load_feeds_failure.
  exists [], [(s!"title", Some s!"A"); (s!"url", Some s!"")],
    [[(s!"title", Some s!"B"); (s!"url", Some s!"https://b.org/rss")]].
  split; [reflexivity|]. split; [exists []; reflexivity|].
  left. split; reflexivity.
Defined.

(** ** Shadowed rankings *)

Lemma find_rank_app (domain : str) (l1 l2 : dict GenerateImport.info) :
  GenerateImport.find_rank domain (l1 ++ l2)
  = match GenerateImport.find_rank domain l1 with
    | Ok None => GenerateImport.find_rank domain l2
    | r => r
    end.
Proof.
  induction l1 as [|[d inf] l1 IH]; [done|].
  cbn [app GenerateImport.find_rank].
  destruct (domains_match_total domain d) as [E|E]; rewrite E;
    cbn [mbind result_bind]; [done|exact IH].
Qed.

(** X17: the keys of the rankings keep a leading "www." that the matcher
    removes, so two items can stand for the same domain; the later of two
    items whose domains normalize alike never decides a lookup: without it
    every lookup returns the same. *)
Theorem shadowed_ranking_is_dead (domain d1 d2 : str)
    (i1 i2 : GenerateImport.info) (pre mid post : dict GenerateImport.info) :
  GenerateImport.normalize_domain d1 = GenerateImport.normalize_domain d2 ->
  GenerateImport.find_rank domain (pre ++ (d1, i1) :: mid ++ (d2, i2) :: post)
  = GenerateImport.find_rank domain (pre ++ (d1, i1) :: mid ++ post).
Proof.
  intros Hn. rewrite !(find_rank_app domain pre).
  destruct (GenerateImport.find_rank domain pre) as [[r|]|e]; try done.
  cbn [GenerateImport.find_rank].
  assert (Hm : GenerateImport.domains_match domain d2
               = GenerateImport.domains_match domain d1)
    by (by apply domains_match_normalized).
  destruct (domains_match_total domain d1) as [E|E]; rewrite E;
    cbn [mbind result_bind]; [done|].
  rewrite !(find_rank_app domain mid).
  destruct (GenerateImport.find_rank domain mid) as [[r|]|e]; try done.
  cbn [GenerateImport.find_rank]. rewrite Hm, E. done.
Qed.

Lemma shadowed_ranking_is_dead_example :
  GenerateImport.find_rank s!"blog.example.com"
    ([] ++ (s!"example.com",
             {| GenerateImport.rank := 4; GenerateImport.author := s!"A" |})
        :: [] ++ (s!"www.example.com",
                   {| GenerateImport.rank := 9; GenerateImport.author := s!"B" |})
        :: [])
  = GenerateImport.find_rank s!"blog.example.com"
      ([] ++ (s!"example.com",
               {| GenerateImport.rank := 4; GenerateImport.author := s!"A" |})
          :: [] ++ []).
Proof.
  apply shadowed_ranking_is_dead. reflexivity.
Defined.

(** ** Ranks as text *)

Lemma int_lstrip_no_space (s : str) :
  Forall (fun c => Py.int_isspace c = false) s -> Py.int_lstrip s = s.
Proof. intros [|c s' Hc _]; [done|]. simpl. by rewrite Hc. Qed.

Lemma int_body_no_space (s : str) :
  Forall (fun c => Py.int_isspace c = false) s ->
  reverse (Py.int_lstrip (reverse (Py.int_lstrip s))) = s.
Proof.
  intros H. rewrite (int_lstrip_no_space s) by done.
  rewrite int_lstrip_no_space by by apply Forall_reverse.
  apply reverse_involutive.
Qed.

Lemma uint_chars_no_space (d : Decimal.uint) :
  Forall (fun c => Py.int_isspace c = false) (lit (NilEmpty.string_of_uint d)).
Proof. induction d; simpl; constructor; done. Qed.

(** Reading the digits of [d] after those of [d'], given most significant
    digit first. *)
Lemma int_digits_uint (d d' : Decimal.uint) (b : bool) :
  d <> Decimal.Nil \/ b = true ->
  Py.int_digits (Z.of_N (DecimalPos.Unsigned.of_lu d')) b
    (lit (NilEmpty.string_of_uint d))
  = Some (Z.of_N (DecimalPos.Unsigned.of_lu (Decimal.revapp d d'))).
Proof.
  revert d' b. induction d; intros d' b Hb;
    [destruct Hb as [?| ->]; done|..];
    cbn [NilEmpty.string_of_uint lit list_ascii_of_string Py.int_digits];
    (match goal with
     | |- context [Py.digit ?c] =>
         let v := eval vm_compute in (Py.digit c) in
         change (Py.digit c) with v
     end);
    cbn [Decimal.revapp];
    (match goal with
     | |- Py.int_digits ?a true _ = Some (Z.of_N (DecimalPos.Unsigned.of_lu (Decimal.revapp _ ?d1))) =>
         replace a with (Z.of_N (DecimalPos.Unsigned.of_lu d1))
           by (cbn [DecimalPos.Unsigned.of_lu]; lia)
     end);
    apply IHd; by right.
Qed.

Lemma int_of_uint (p : positive) :
  Py.int_digits 0 false (lit (NilEmpty.string_of_uint (Pos.to_uint p)))
  = Some (Zpos p).
Proof.
  change 0%Z with (Z.of_N (DecimalPos.Unsigned.of_lu Decimal.Nil)).
  rewrite (int_digits_uint (Pos.to_uint p) Decimal.Nil false).
  - change (Decimal.revapp (Pos.to_uint p) Decimal.Nil)
      with (Decimal.rev (Pos.to_uint p)).
    by rewrite <- DecimalPos.Unsigned.of_uint_alt, DecimalPos.Unsigned.of_to.
  - left. apply DecimalPos.Unsigned.to_uint_nonnil.
Qed.

Lemma digit_range (c : ascii) (d : Z) :
  Py.digit c = Some d -> (0 <= d <= 9)%Z.
Proof.
  unfold Py.digit. destruct (_ && _)%N eqn:E; [|done]. intros [= <-].
  apply andb_true_iff in E as [E1 E2].
  apply N.leb_le in E1. apply N.leb_le in E2. lia.
Qed.

Lemma count_digits_cons (c : ascii) (s : str) :
  Py.count_digits (c :: s)
  = (if Py.digit c is Some _ then 1 else 0) + Py.count_digits s.
Proof.
  unfold Py.count_digits. rewrite filter_cons.
  destruct (Py.digit c) as [d|].
  - rewrite decide_True by eauto. done.
  - rewrite decide_False by (by intros [? ?]). done.
Qed.

(** A literal of [k] digits read after the value [acc] gives a value
    between [acc * 10^k] and [(acc + 1) * 10^k]. *)
Lemma int_digits_bounds (s : str) (acc v : Z) (b : bool) :
  (0 <= acc)%Z ->
  Py.int_digits acc b s = Some v ->
  (acc * 10 ^ Z.of_nat (Py.count_digits s) <= v
   < (acc + 1) * 10 ^ Z.of_nat (Py.count_digits s))%Z.
Proof.
  revert acc b. induction s as [|c s IH]; intros acc b Hacc; simpl.
  - destruct b; [|done]. intros [= <-]. unfold Py.count_digits. simpl. lia.
  - rewrite count_digits_cons. destruct (Py.digit c) as [d|] eqn:Hd.
    + intros Hv. apply digit_range in Hd.
      apply IH in Hv; [|lia].
      replace (Z.of_nat (1 + Py.count_digits s))
        with (Z.succ (Z.of_nat (Py.count_digits s))) by lia.
      rewrite Z.pow_succ_r by lia.
      assert (0 < 10 ^ Z.of_nat (Py.count_digits s))%Z
        by (apply Z.pow_pos_nonneg; lia).
      nia.
    + destruct (bool_decide (c = "_"%char) && b); [|done].
      intros Hv. by apply IH in Hv.
Qed.

Lemma to_uint_not_D0 (p : positive) (d : Decimal.uint) :
  Pos.to_uint p <> Decimal.D0 d.
Proof.
  assert (Hn : Decimal.unorm (Pos.to_uint p) = Pos.to_uint p).
  { rewrite <- DecimalPos.Unsigned.to_of, DecimalPos.Unsigned.of_to. done. }
  assert (Hz : Decimal.nzhead (Pos.to_uint p) <> Decimal.Nil).
  { intros H%DecimalFacts.unorm_0. rewrite Hn in H.
    by apply DecimalPos.Unsigned.to_uint_nonzero in H. }
  rewrite DecimalFacts.unorm_nzhead in Hn by done.
  rewrite <- Hn. apply DecimalFacts.nzhead_nonzero.
Qed.

(** The text of a positive integer starts with a digit other than 0. *)
Lemma uint_chars_leading (p : positive) :
  exists c rest k,
    lit (NilEmpty.string_of_uint (Pos.to_uint p)) = c :: rest
    /\ Py.digit c = Some k /\ (1 <= k)%Z
    /\ c <> "-"%char /\ c <> "+"%char.
Proof.
  pose proof (DecimalPos.Unsigned.to_uint_nonnil p) as Hnil.
  pose proof (to_uint_not_D0 p) as H0.
  destruct (Pos.to_uint p) as [|d|d|d|d|d|d|d|d|d|d]; [done|by destruct (H0 d)|..];
    cbn [NilEmpty.string_of_uint lit list_ascii_of_string];
    eexists _, _, _; (split; [reflexivity|]); (split; [cbv; reflexivity|]);
    (split; [lia|]); split; discriminate.
Qed.

Lemma uint_chars_count (p : positive) :
  (Zpos p < 10 ^ Z.of_nat Py.int_max_str_digits)%Z ->
  Py.count_digits (lit (NilEmpty.string_of_uint (Pos.to_uint p)))
  <= Py.int_max_str_digits.
Proof.
  intros Hp. pose proof (int_of_uint p) as Hint.
  destruct (uint_chars_leading p) as (c & rest & k & E & Hc & Hk & _).
  rewrite E in Hint |- *. cbn [Py.int_digits] in Hint. rewrite Hc in Hint.
  apply int_digits_bounds in Hint as [Hlo _]; [|lia].
  rewrite count_digits_cons, Hc.
  assert (0 < 10 ^ Z.of_nat (Py.count_digits rest))%Z
    by (apply Z.pow_pos_nonneg; lia).
  assert (Hlt : (10 ^ Z.of_nat (Py.count_digits rest)
                 < 10 ^ Z.of_nat Py.int_max_str_digits)%Z) by nia.
  apply Z.pow_lt_mono_r_iff in Hlt; lia.
Qed.

Lemma int_sign_digit (c : ascii) (rest : str) :
  c <> "-"%char -> c <> "+"%char -> Py.int_sign (c :: rest) = (false, c :: rest).
Proof.
  intros H1 H2. unfold Py.int_sign. by rewrite !bool_decide_eq_false_2.
Qed.

(** [int] reads the text of an integer of at most [sys.int_max_str_digits]
    digits back as that integer. *)
Lemma int_of_str_bounded (z : Z) :
  (Z.abs z < 10 ^ Z.of_nat Py.int_max_str_digits)%Z ->
  Py.int (Py.str_of_int z) = Ok z.
Proof.
  intros Hz. destruct z as [|p|p]; [done|..];
    unfold Py.str_of_int, Z.to_int, NilZero.string_of_int, NilZero.string_of_uint;
    pose proof (DecimalPos.Unsigned.to_uint_nonnil p) as Hnil;
    pose proof (int_of_uint p) as Hint;
    pose proof (uint_chars_no_space (Pos.to_uint p)) as Hsp;
    pose proof (uint_chars_count p Hz) as Hcount;
    destruct (uint_chars_leading p) as (c & rest & k & E & _ & _ & Hm & Hp);
    assert (Es : match Pos.to_uint p with
                 | Decimal.Nil => "0"%string
                 | _ => NilEmpty.string_of_uint (Pos.to_uint p)
                 end = NilEmpty.string_of_uint (Pos.to_uint p))
      by (by destruct (Pos.to_uint p));
    rewrite Es; unfold Py.int.
  - rewrite int_body_no_space by done.
    rewrite E, int_sign_digit by done. rewrite <- E, Hint.
    by rewrite (proj2 (Nat.ltb_ge _ _)) by done.
  - change (lit (String "-" (NilEmpty.string_of_uint (Pos.to_uint p))))
      with ("-"%char :: lit (NilEmpty.string_of_uint (Pos.to_uint p))).
    rewrite int_body_no_space by (by constructor).
    cbn [Py.int_sign]. rewrite bool_decide_eq_true_2 by done. rewrite Hint.
    by rewrite (proj2 (Nat.ltb_ge _ _)) by done.
Qed.

(** What [int] returns has at most [sys.int_max_str_digits] digits. *)
Lemma int_bounded (s : str) (z : Z) :
  Py.int s = Ok z -> (Z.abs z < 10 ^ Z.of_nat Py.int_max_str_digits)%Z.
Proof.
  unfold Py.int. destruct (Py.int_sign _) as [negative ds].
  destruct (Py.int_digits 0 false ds) as [v|] eqn:Hd; [|done].
  destruct (Py.int_max_str_digits <? Py.count_digits ds) eqn:Hc; [done|].
  apply Nat.ltb_ge in Hc. intros [= <-].
  apply int_digits_bounds in Hd as [Hlo Hhi]; [|lia].
  assert (Hpow : (10 ^ Z.of_nat (Py.count_digits ds)
                  <= 10 ^ Z.of_nat Py.int_max_str_digits)%Z)
    by (apply Z.pow_le_mono_r; lia).
  destruct negative; lia.
Qed.

(** X16: the text that [str] writes for a rank that was loaded is read back
    by [int] as that rank: a row loads alike with its rank field as it
    stands and with the printed rank in its place. *)
Theorem loaded_rank_reads_back (row : list str) (z : Z) :
  row_rank row = Ok z ->
  row_rank (Py.str_of_int z :: drop 1 row) = Ok z
  /\ (forall acc,
        GenerateImport.load_row acc (Py.str_of_int z :: drop 1 row)
        = GenerateImport.load_row acc row)
  /\ (forall acc,
        UpdateRanks.load_row acc (Py.str_of_int z :: drop 1 row)
        = UpdateRanks.load_row acc row).
Proof.
  intros Hz.
  assert (Hback : row_rank (Py.str_of_int z :: drop 1 row) = Ok z).
  { unfold row_rank in *. cbn [lookup list_lookup default from_option id].
    by apply int_of_str_bounded, (int_bounded (default [] (row !! 0))). }
  split; [done|].
  destruct row as [|r0 rest]; [done|]. cbn [drop] in *.
  split; intros acc.
  - rewrite !generate_import_load_row. unfold info_of_row.
    rewrite Hback, Hz. done.
  - rewrite !update_ranks_load_row. rewrite Hback, Hz. done.
Qed.

Lemma loaded_rank_reads_back_example :
  GenerateImport.load_row []
    [s!"7"; s!"Example.com"; s!""; s!""; s!""; s!"Author"]
  = GenerateImport.load_row []
      [s!" +0_07 "; s!"Example.com"; s!""; s!""; s!""; s!"Author"].
Proof.
  destruct (loaded_rank_reads_back
              [s!" +0_07 "; s!"Example.com"; s!""; s!""; s!""; s!"Author"]
              7%Z eq_refl) as (_ & H & _).
  exact (H []).
Defined.
